(** * go-web-server: the /hello endpoint, its two middlewares and their composition

    A shallow embedding of [main.go].  Go strings are byte strings, so they are
    modelled as [string] (a list of [ascii], one per byte); bytes and runes are
    read as [N]; Go [int]s and durations as [Z].  The pieces of the Go standard
    library that decide what the program writes ([unicode/utf8], the string and
    struct encoders of [encoding/json], [strconv.Quote] behind the [%q] verb, the
    [http.ResponseWriter] contract, [defer]/[recover]) are modelled next to the
    program; the parts that only supply values (the clock, the layout of a
    formatted time, the Unicode tables, the log sink) are parameters. *)

From Stdlib Require Import String Ascii NArith ZArith List Bool Arith Lia.
Import ListNotations.
Local Open Scope string_scope.

(** The double quote and the backslash, as bytes. *)
Definition dquote : ascii := "034"%char.
Definition bslash : ascii := "092"%char.

(** [type response struct] (main.go, lines 104-107). *)
Record response : Type := mkResponse { Data : string; Error : string }.

(** ** unicode/utf8 *)
Module utf8.
Local Open Scope N_scope.

Definition RuneError : N := 0xFFFD.
Definition RuneSelf : N := 0x80.
Definition MaxRune : N := 0x10FFFF.
Definition surrogateMin : N := 0xD800.
Definition surrogateMax : N := 0xDFFF.

Definition tx : N := 0x80.
Definition t2 : N := 0xC0.
Definition t3 : N := 0xE0.
Definition t4 : N := 0xF0.
Definition maskx : N := 0x3F.
Definition mask2 : N := 0x1F.
Definition mask3 : N := 0x0F.
Definition mask4 : N := 0x07.
Definition rune1Max : N := 0x7F.
Definition rune2Max : N := 0x7FF.
Definition rune3Max : N := 0xFFFF.
Definition locb : N := 0x80.
Definition hicb : N := 0xBF.

(** Entries of the table [first]: the low three bits are the length of the
    sequence, the high four bits index [acceptRanges]. *)
Definition xx : N := 0xF1.
Definition as_ : N := 0xF0.
Definition s1 : N := 0x02.
Definition s2 : N := 0x13.
Definition s3 : N := 0x03.
Definition s4 : N := 0x23.
Definition s5 : N := 0x34.
Definition s6 : N := 0x04.
Definition s7 : N := 0x44.

(** The 256-entry table [first], written by ranges of the lead byte. *)
Definition first (b : N) : N :=
  if b <? 0x80 then as_
  else if b <? 0xC2 then xx
  else if b <? 0xE0 then s1
  else if b =? 0xE0 then s2
  else if b <? 0xED then s3
  else if b =? 0xED then s4
  else if b <? 0xF0 then s3
  else if b =? 0xF0 then s5
  else if b <? 0xF4 then s6
  else if b =? 0xF4 then s7
  else xx.

(** [acceptRanges]: the bounds of the second byte. *)
Definition acceptRanges (i : N) : N * N :=
  match i with
  | 0 => (locb, hicb)
  | 1 => (0xA0, hicb)
  | 2 => (locb, 0x9F)
  | 3 => (0x90, hicb)
  | 4 => (locb, 0x8F)
  | _ => (0, 0)
  end.

(** [utf8.DecodeRuneInString]: the first rune of [s] and its width in bytes;
    [(RuneError, 1)] when the encoding is invalid, [(RuneError, 0)] on the empty
    string. *)
Definition DecodeRuneInString (s : string) : N * nat :=
  match s with
  | EmptyString => (RuneError, 0%nat)
  | String c0 t =>
    let b0 := N_of_ascii c0 in
    let x := first b0 in
    if as_ <=? x then ((if x =? xx then RuneError else b0), 1%nat)
    else
      let sz := N.to_nat (N.land x 7) in
      let '(lo, hi) := acceptRanges (N.shiftr x 4) in
      if (String.length s <? sz)%nat then (RuneError, 1%nat)
      else
        match t with
        | EmptyString => (RuneError, 1%nat)
        | String c1 t' =>
          let b1 := N_of_ascii c1 in
          if (b1 <? lo) || (hi <? b1) then (RuneError, 1%nat)
          else if (sz <=? 2)%nat then
            (N.lor (N.shiftl (N.land b0 mask2) 6) (N.land b1 maskx), 2%nat)
          else
            match t' with
            | EmptyString => (RuneError, 1%nat)
            | String c2 t'' =>
              let b2 := N_of_ascii c2 in
              if (b2 <? locb) || (hicb <? b2) then (RuneError, 1%nat)
              else if (sz <=? 3)%nat then
                (N.lor (N.lor (N.shiftl (N.land b0 mask3) 12)
                              (N.shiftl (N.land b1 maskx) 6))
                       (N.land b2 maskx), 3%nat)
              else
                match t'' with
                | EmptyString => (RuneError, 1%nat)
                | String c3 _ =>
                  let b3 := N_of_ascii c3 in
                  if (b3 <? locb) || (hicb <? b3) then (RuneError, 1%nat)
                  else
                    (N.lor (N.lor (N.lor (N.shiftl (N.land b0 mask4) 18)
                                         (N.shiftl (N.land b1 maskx) 12))
                                  (N.shiftl (N.land b2 maskx) 6))
                           (N.land b3 maskx), 4%nat)
                end
            end
        end
  end.

(** The conversion [byte(r)] keeps the low eight bits. *)
Definition byte_of (r : N) : ascii := ascii_of_N (N.land r 0xFF).

(** [utf8.AppendRune] on an empty buffer: the UTF-8 encoding of [r]; a rune out
    of range or in the surrogate range is encoded as [RuneError]. *)
Definition EncodeRune (r : N) : string :=
  if r <=? rune1Max then String (byte_of r) EmptyString
  else if r <=? rune2Max then
    String (byte_of (N.lor t2 (N.shiftr r 6)))
      (String (byte_of (N.lor tx (N.land r maskx))) EmptyString)
  else
    let r := if (MaxRune <? r) || ((surrogateMin <=? r) && (r <=? surrogateMax))
             then RuneError else r in
    if r <=? rune3Max then
      String (byte_of (N.lor t3 (N.shiftr r 12)))
        (String (byte_of (N.lor tx (N.land (N.shiftr r 6) maskx)))
           (String (byte_of (N.lor tx (N.land r maskx))) EmptyString))
    else
      String (byte_of (N.lor t4 (N.shiftr r 18)))
        (String (byte_of (N.lor tx (N.land (N.shiftr r 12) maskx)))
           (String (byte_of (N.lor tx (N.land (N.shiftr r 6) maskx)))
              (String (byte_of (N.lor tx (N.land r maskx))) EmptyString))).

(** [utf8.ValidString]: every rune of [s] decodes without error. *)
Fixpoint ValidString (s : string) : bool :=
  match s with
  | EmptyString => true
  | String c0 t =>
    if N_of_ascii c0 <? RuneSelf then ValidString t
    else
      match snd (DecodeRuneInString s), t with
      | 2%nat, String _ t1 => ValidString t1
      | 3%nat, String _ (String _ t2) => ValidString t2
      | 4%nat, String _ (String _ (String _ t3)) => ValidString t3
      | _, _ => false
      end
  end.

(** What [DecodeRuneInString] can answer on a string that starts with the
    byte [c0], not ASCII, followed by [t]: an error of width one, or a rune of
    two, three or four bytes.  In the latter cases the rune encodes back to the
    bytes read, and the answer does not depend on what follows them. *)
Inductive Decodes (c0 : ascii) (t : string) : N -> nat -> Prop :=
| Decodes_error : Decodes c0 t RuneError 1
| Decodes_2 c1 t1 r :
    t = String c1 t1 -> 0x80 <= r <= 0x7FF ->
    EncodeRune r = String c0 (String c1 EmptyString) ->
    (forall X, DecodeRuneInString (String c0 (String c1 X)) = (r, 2%nat)) ->
    Decodes c0 t r 2
| Decodes_3 c1 c2 t2 r :
    t = String c1 (String c2 t2) -> 0x800 <= r <= 0xFFFF ->
    EncodeRune r = String c0 (String c1 (String c2 EmptyString)) ->
    (forall X, DecodeRuneInString (String c0 (String c1 (String c2 X))) = (r, 3%nat)) ->
    Decodes c0 t r 3
| Decodes_4 c1 c2 c3 t3 r :
    t = String c1 (String c2 (String c3 t3)) -> 0x10000 <= r <= 0x10FFFF ->
    EncodeRune r = String c0 (String c1 (String c2 (String c3 EmptyString))) ->
    (forall X,
        DecodeRuneInString (String c0 (String c1 (String c2 (String c3 X)))) = (r, 4%nat)) ->
    Decodes c0 t r 4.

End utf8.

(** ** encoding/json, as far as [response] needs it *)
Module json.
Local Open Scope N_scope.

Definition hex : string := "0123456789abcdef".

(** [hex[i]], for [i < 16]. *)
Definition hex_digit (i : N) : ascii :=
  match String.get (N.to_nat i) hex with
  | Some c => c
  | None => "000"%char
  end.

(** The table [htmlSafeSet]: the ASCII bytes written as they are when HTML
    escaping is on, which it is for [json.Marshal]. *)
Definition htmlSafeSet (b : N) : bool :=
  (0x20 <=? b) && (b <? 0x80)
  && negb (b =? 0x22) && negb (b =? 0x26) && negb (b =? 0x3C)
  && negb (b =? 0x3E) && negb (b =? 0x5C).

(** What [appendString] writes for one byte below [utf8.RuneSelf]. *)
Definition escape_byte (c : ascii) : string :=
  let b := N_of_ascii c in
  if htmlSafeSet b then String c EmptyString
  else if (b =? 0x5C) || (b =? 0x22) then String bslash (String c EmptyString)
  else if b =? 0x08 then String bslash "b"
  else if b =? 0x0C then String bslash "f"
  else if b =? 0x0A then String bslash "n"
  else if b =? 0x0D then String bslash "r"
  else if b =? 0x09 then String bslash "t"
  else String bslash
         ("u00" ++ String (hex_digit (N.shiftr b 4))
                     (String (hex_digit (N.land b 0xF)) EmptyString)).

(** The loop of [appendString]: the bytes between the two quotes.  Invalid
    UTF-8 becomes the escape of U+FFFD, one per offending byte; U+2028 and
    U+2029 are escaped; every other rune is copied. *)
Fixpoint escape (src : string) : string :=
  match src with
  | EmptyString => EmptyString
  | String c t =>
    if N_of_ascii c <? utf8.RuneSelf then escape_byte c ++ escape t
    else
      let '(r, size) := utf8.DecodeRuneInString src in
      if (r =? utf8.RuneError) && (size =? 1)%nat then
        String bslash "ufffd" ++ escape t
      else
        let sep := (r =? 0x2028) || (r =? 0x2029) in
        let esc := String bslash ("u202" ++ String (hex_digit (N.land r 0xF)) EmptyString) in
        match size, t with
        | 2%nat, String c1 t1 =>
          (if sep then esc else String c (String c1 EmptyString)) ++ escape t1
        | 3%nat, String c1 (String c2 t2) =>
          (if sep then esc else String c (String c1 (String c2 EmptyString))) ++ escape t2
        | 4%nat, String c1 (String c2 (String c3 t3)) =>
          (if sep then esc else String c (String c1 (String c2 (String c3 EmptyString))))
            ++ escape t3
        | _, _ => (if sep then esc else String c EmptyString) ++ escape t
        end
  end.

(** [appendString]: a JSON string literal. *)
Definition appendString (src : string) : string :=
  String dquote (escape src ++ String dquote EmptyString).

(** One step of the struct encoder for a string field tagged [omitempty]:
    an empty value is skipped; otherwise the separator ([{] before the first
    field written, a comma afterwards), the quoted name, a colon and the value. *)
Definition encode_field (name val : string) (st : string * ascii) : string * ascii :=
  let '(buf, next) := st in
  if (String.length val =? 0)%nat then st
  else (buf ++ String next (String dquote name ++ String dquote ":" ++ appendString val),
        ","%char).

(** [json.Marshal] of a [response]: the two fields in declaration order.  The
    second component is the error, which this encoder never reports. *)
Definition Marshal (v : response) : string * option string :=
  let '(buf, next) :=
    encode_field "error" (Error v) (encode_field "data" (Data v) (EmptyString, "{"%char)) in
  (if Ascii.eqb next "{" then buf ++ "{}" else buf ++ "}", None).

(** *** Decoding *)

Definition hexval (c : ascii) : option N :=
  let b := N_of_ascii c in
  if (0x30 <=? b) && (b <=? 0x39) then Some (b - 0x30)
  else if (0x61 <=? b) && (b <=? 0x66) then Some (b - 0x61 + 10)
  else if (0x41 <=? b) && (b <=? 0x46) then Some (b - 0x41 + 10)
  else None.

(** [getu4]: the code unit of a [\uXXXX] escape at the head of [s]; [None]
    stands for Go's [-1]. *)
Definition getu4 (s : string) : option N :=
  match s with
  | String b (String u (String h1 (String h2 (String h3 (String h4 _))))) =>
    if Ascii.eqb b bslash && Ascii.eqb u "u" then
      match hexval h1, hexval h2, hexval h3, hexval h4 with
      | Some d1, Some d2, Some d3, Some d4 => Some (((d1 * 16 + d2) * 16 + d3) * 16 + d4)
      | _, _, _, _ => None
      end
    else None
  | _ => None
  end.

(** [utf16.IsSurrogate] and [utf16.DecodeRune]. *)
Definition IsSurrogate (r : N) : bool := (0xD800 <=? r) && (r <? 0xE000).

Definition utf16_DecodeRune (r1 : N) (r2 : option N) : N :=
  match r2 with
  | Some r2 =>
    if (0xD800 <=? r1) && (r1 <? 0xDC00) && (0xDC00 <=? r2) && (r2 <? 0xE000)
    then N.lor (N.shiftl (r1 - 0xD800) 10) (r2 - 0xDC00) + 0x10000
    else utf8.RuneError
  | None => utf8.RuneError
  end.

(** The escapes of one character after a backslash. *)
Definition simple_escape (e : ascii) : option ascii :=
  let b := N_of_ascii e in
  if (b =? 0x22) || (b =? 0x5C) || (b =? 0x2F) then Some e
  else if b =? 0x62 then Some "008"%char
  else if b =? 0x66 then Some "012"%char
  else if b =? 0x6E then Some "010"%char
  else if b =? 0x72 then Some "013"%char
  else if b =? 0x74 then Some "009"%char
  else None.

Fixpoint skip (n : nat) (s : string) : string :=
  match n, s with
  | S n', String _ t => skip n' t
  | _, _ => s
  end.

Definition prepend (p : string) (r : option (string * string)) : option (string * string) :=
  match r with
  | Some (v, rest) => Some (p ++ v, rest)
  | None => None
  end.

(** The scanner and [unquote] in one pass: [s] starts right after the opening
    quote of a literal; the result is the decoded text and what follows the
    closing quote.  Raw multi-byte text is coerced to valid UTF-8 as [unquote]
    does.  Each round consumes a byte, so [String.length s + 1] rounds are
    enough. *)
Fixpoint read_string (fuel : nat) (s : string) : option (string * string) :=
  match fuel with
  | O => None
  | S fuel =>
    match s with
    | EmptyString => None
    | String c t =>
      let b := N_of_ascii c in
      if b =? 0x22 then Some (EmptyString, t)
      else if b =? 0x5C then
        match t with
        | EmptyString => None
        | String e t1 =>
          match simple_escape e with
          | Some d => prepend (String d EmptyString) (read_string fuel t1)
          | None =>
            if Ascii.eqb e "u" then
              match getu4 s with
              | None => None
              | Some rr =>
                let s6 := skip 6 s in
                if IsSurrogate rr then
                  let dec := utf16_DecodeRune rr (getu4 s6) in
                  if dec =? utf8.RuneError
                  then prepend (utf8.EncodeRune utf8.RuneError) (read_string fuel s6)
                  else prepend (utf8.EncodeRune dec) (read_string fuel (skip 6 s6))
                else prepend (utf8.EncodeRune rr) (read_string fuel s6)
              end
            else None
          end
        end
      else if b <? 0x20 then None
      else if b <? utf8.RuneSelf then prepend (String c EmptyString) (read_string fuel t)
      else
        let '(rr, size) := utf8.DecodeRuneInString s in
        prepend (utf8.EncodeRune rr) (read_string fuel (skip size s))
    end
  end.

Definition is_space (c : ascii) : bool :=
  let b := N_of_ascii c in
  (b =? 0x20) || (b =? 0x09) || (b =? 0x0D) || (b =? 0x0A).

Fixpoint skip_ws (s : string) : string :=
  match s with
  | String c t => if is_space c then skip_ws t else s
  | EmptyString => EmptyString
  end.

Definition expect (c : ascii) (s : string) : option string :=
  match s with
  | String c' t => if Ascii.eqb c' c then Some t else None
  | EmptyString => None
  end.

Definition read_literal (s : string) : option (string * string) :=
  match expect dquote s with
  | Some s1 => read_string (S (String.length s1)) s1
  | None => None
  end.

(** The members of an object whose values are strings, from the first key on:
    the pairs in the order read and the text after the closing brace. *)
Fixpoint read_members (fuel : nat) (s : string) : option (list (string * string) * string) :=
  match fuel with
  | O => None
  | S fuel =>
    match read_literal s with
    | None => None
    | Some (k, s2) =>
      match expect ":" (skip_ws s2) with
      | None => None
      | Some s3 =>
        match read_literal (skip_ws s3) with
        | None => None
        | Some (v, s5) =>
          match skip_ws s5 with
          | EmptyString => None
          | String c t =>
            if Ascii.eqb c "}" then Some ([(k, v)], t)
            else if Ascii.eqb c "," then
              match read_members fuel (skip_ws t) with
              | Some (ms, rest) => Some ((k, v) :: ms, rest)
              | None => None
              end
            else None
          end
        end
      end
    end
  end.

(** A whole JSON text that is an object of string members; [None] for a
    syntax error and for any other JSON value, which [response] cannot hold
    in either field. *)
Definition read_object (s : string) : option (list (string * string)) :=
  match expect "{" (skip_ws s) with
  | None => None
  | Some s1 =>
    let s2 := skip_ws s1 in
    match expect "}" s2 with
    | Some rest =>
      match skip_ws rest with EmptyString => Some [] | _ => None end
    | None =>
      match read_members (String.length s2) s2 with
      | Some (ms, rest) =>
        match skip_ws rest with EmptyString => Some ms | _ => None end
      | None => None
      end
    end
  end.

(** The keys of the object, in the order they occur. *)
Definition keys (s : string) : option (list string) :=
  option_map (map fst) (read_object s).

Definition lower (c : ascii) : ascii :=
  let b := N_of_ascii c in
  if (0x41 <=? b) && (b <=? 0x5A) then ascii_of_N (b + 0x20) else c.

Fixpoint equalFold (a b : string) : bool :=
  match a, b with
  | EmptyString, EmptyString => true
  | String x a', String y b' => Ascii.eqb (lower x) (lower y) && equalFold a' b'
  | _, _ => false
  end.

(** A key selects the field whose name it equals up to letter case; any
    other key is ignored. *)
Definition assign (r : response) (kv : string * string) : response :=
  let '(k, v) := kv in
  if equalFold k "data" then mkResponse v (Error r)
  else if equalFold k "error" then mkResponse (Data r) v
  else r.

(** [json.Unmarshal] into a zero [response]. *)
Definition Unmarshal (s : string) : option response :=
  option_map (fun ms => fold_left assign ms (mkResponse EmptyString EmptyString)) (read_object s).

(** The text a Go string stands for once encoded: the package coerces
    strings to valid UTF-8, each byte that does not start a valid encoding
    becoming U+FFFD. *)
Fixpoint coerced (s : string) : string :=
  match s with
  | EmptyString => EmptyString
  | String c t =>
    if N_of_ascii c <? utf8.RuneSelf then String c (coerced t)
    else
      match snd (utf8.DecodeRuneInString s), t with
      | 2%nat, String c1 t1 => String c (String c1 (coerced t1))
      | 3%nat, String c1 (String c2 t2) => String c (String c1 (String c2 (coerced t2)))
      | 4%nat, String c1 (String c2 (String c3 t3)) =>
        String c (String c1 (String c2 (String c3 (coerced t3))))
      | _, _ => utf8.EncodeRune utf8.RuneError ++ coerced t
      end
  end.

(** The member a field tagged [omitempty] contributes: none when empty. *)
Definition written (name val : string) : list (string * string) :=
  match val with
  | EmptyString => []
  | String _ _ => [(name, coerced val)]
  end.

End json.

(** ** strconv.Quote and the verbs of fmt the program uses *)
Module strconv.
Local Open Scope N_scope.

Section Quote.

(** [strconv.IsPrint] on the runes above Latin-1 is a lookup in the Unicode
    tables of the library. *)
Variable unicode_IsPrint : N -> bool.

Definition IsPrint (r : N) : bool :=
  if r <=? 0xFF then
    if (0x20 <=? r) && (r <=? 0x7E) then true
    else if (0xA1 <=? r) && (r <=? 0xFF) then negb (r =? 0xAD)
    else false
  else unicode_IsPrint r.

Definition ValidRune (r : N) : bool :=
  (r <? utf8.surrogateMin) || ((utf8.surrogateMax <? r) && (r <=? utf8.MaxRune)).

Definition lowerhex : string := "0123456789abcdef".

Definition hexdigit (i : N) : ascii :=
  match String.get (N.to_nat i) lowerhex with
  | Some c => c
  | None => "000"%char
  end.

(** The digits [lowerhex[r>>s & 0xF]] for the shifts [s] of the list. *)
Definition hexrun (r : N) (shifts : list N) : string :=
  string_of_list_ascii (map (fun s => hexdigit (N.land (N.shiftr r s) 0xF)) shifts).

(** [appendEscapedRune] with the double quote as quote, neither ASCII-only nor
    graphic-only. *)
Definition appendEscapedRune (r : N) : string :=
  if (r =? 0x22) || (r =? 0x5C) then String bslash (String (utf8.byte_of r) EmptyString)
  else if IsPrint r then utf8.EncodeRune r
  else if r =? 0x07 then String bslash "a"
  else if r =? 0x08 then String bslash "b"
  else if r =? 0x0C then String bslash "f"
  else if r =? 0x0A then String bslash "n"
  else if r =? 0x0D then String bslash "r"
  else if r =? 0x09 then String bslash "t"
  else if r =? 0x0B then String bslash "v"
  else if (r <? 0x20) || (r =? 0x7F) then
    String bslash ("x" ++ hexrun (N.land r 0xFF) [4; 0])
  else if negb (ValidRune r) then String bslash ("u" ++ hexrun 0xFFFD [12; 8; 4; 0])
  else if r <? 0x10000 then String bslash ("u" ++ hexrun r [12; 8; 4; 0])
  else String bslash ("U" ++ hexrun r [28; 24; 20; 16; 12; 8; 4; 0]).

(** The loop of [appendQuotedWith]. *)
Fixpoint quote_runes (s : string) : string :=
  match s with
  | EmptyString => EmptyString
  | String c t =>
    let b := N_of_ascii c in
    if b <? utf8.RuneSelf then appendEscapedRune b ++ quote_runes t
    else
      let '(r, width) := utf8.DecodeRuneInString s in
      if (width =? 1)%nat && (r =? utf8.RuneError) then
        String bslash ("x" ++ hexrun b [4; 0]) ++ quote_runes t
      else
        match width, t with
        | 2%nat, String _ t1 => appendEscapedRune r ++ quote_runes t1
        | 3%nat, String _ (String _ t2) => appendEscapedRune r ++ quote_runes t2
        | 4%nat, String _ (String _ (String _ t3)) => appendEscapedRune r ++ quote_runes t3
        | _, _ => appendEscapedRune r ++ quote_runes t
        end
  end.

(** [strconv.Quote]. *)
Definition Quote (s : string) : string :=
  String dquote (quote_runes s ++ String dquote EmptyString).

(** [fmt.Sprintf] for string operands and the verbs [%s], [%v] and [%q], the
    only ones in the program: [%s] and [%v] copy the operand, [%q] quotes it.
    Any other byte of the format is copied. *)
Fixpoint Sprintf (format : string) (operands : list string) : string :=
  match format with
  | EmptyString => EmptyString
  | String c rest =>
    match rest, operands with
    | String v rest', a :: operands' =>
      if Ascii.eqb c "%" && (Ascii.eqb v "s" || Ascii.eqb v "v") then a ++ Sprintf rest' operands'
      else if Ascii.eqb c "%" && Ascii.eqb v "q" then Quote a ++ Sprintf rest' operands'
      else String c (Sprintf rest operands)
    | _, _ => String c (Sprintf rest operands)
    end
  end.

End Quote.
End strconv.

(** ** The request pipeline *)

(** *** Panics, deferred calls and state *)

(** How a call ends: it returns, or it panics with a value.  A panic value is
    kept as the text that the [%v] verb prints for it; every panic has one
    (a call of panic with nil panics with a runtime error of its own). *)
Inductive Result (A : Type) : Type :=
| Ok (a : A)
| Panicked (v : string).
Arguments Ok {A} a.
Arguments Panicked {A} v.

(** A computation over a state [S]; the state reached is kept when it panics. *)
Definition M (S A : Type) : Type := S -> Result A * S.

Definition ret {S A} (a : A) : M S A := fun s => (Ok a, s).

Definition bind {S A B} (c : M S A) (k : A -> M S B) : M S B :=
  fun s =>
    match c s with
    | (Ok a, s') => k a s'
    | (Panicked v, s') => (Panicked v, s')
    end.

Definition panic {S A} (v : string) : M S A := fun s => (Panicked v, s).

Definition get {S} : M S S := fun s => (Ok s, s).

Definition modify {S} (f : S -> S) : M S unit := fun s => (Ok tt, f s).

Declare Scope go_scope.
Delimit Scope go_scope with go.
Notation "x <- c ;; k" := (bind c (fun x => k))
  (at level 61, c at next level, right associativity) : go_scope.
Notation "c ;; k" := (bind c (fun _ => k))
  (at level 61, right associativity) : go_scope.
Local Open Scope go_scope.

(** A computation of the enclosing state, run in a frame that has more. *)
Definition lift {L S A} (c : M S A) : M (L * S) A :=
  fun ls =>
    let '(r, s') := c (snd ls) in (r, (fst ls, s')).

(** [defer d; body].  The deferred call runs when the body ends, either way.
    It runs on the state extended with the panic in flight, which [recover]
    reads and clears; a panic still in flight when the deferred call returns
    goes on to the caller, and so does a panic of the deferred call itself. *)
Definition defer {S} (d : M (option string * S) unit) (body : M S unit) : M S unit :=
  fun s =>
    let '(r, s1) := body s in
    let inflight := match r with Ok _ => None | Panicked v => Some v end in
    match d (inflight, s1) with
    | (Ok _, (None, s2)) => (Ok tt, s2)
    | (Ok _, (Some v, s2)) => (Panicked v, s2)
    | (Panicked v', (_, s2)) => (Panicked v', s2)
    end.

Definition recover {S} : M (option string * S) (option string) :=
  fun ps => (Ok (fst ps), (None, snd ps)).

(** *** The world a handler acts on *)

(** An operand of a log call: text, or a [time.Duration] in nanoseconds. *)
Inductive Arg : Type :=
| AString (s : string)
| ADuration (d : Z).

(** A call [log.Printf(format, operands...)]. *)
Record LogCall : Type := mkLogCall { format : string; operands : list Arg }.

(** A call on the [http.ResponseWriter] of the request. *)
Inductive WCall : Type :=
| WriteHeader (code : Z)
| Write (data : string).

(** A reading of [time.Now]: wall clock and monotonic clock, in nanoseconds. *)
Record Time : Type := mkTime { wall : Z; mono : Z }.

(** [stdout]: the lines printed with [fmt.Println]; [logged]: the calls the
    logger accepted; [ticks]: how many times the clock was read; [resp]: the
    calls made on the response writer, oldest first. *)
Record World : Type := mkWorld {
  stdout : list string;
  logged : list LogCall;
  ticks : nat;
  resp : list WCall
}.

(** The fields of [*http.Request] the program reads; [URL_Path] is
    [r.URL.Path]. *)
Record Request : Type := mkRequest {
  Method : string;
  RemoteAddr : string;
  URL_Path : string
}.

(** [http.Handler]. *)
Definition Handler : Type := Request -> M World unit.

Definition StatusOK : Z := 200.
Definition StatusInternalServerError : Z := 500.
Definition StatusNotImplemented : Z := 501.
Definition MethodGet : string := "GET".

(** The status the calls on the writer decide: the first call decides, a
    [Write] before any [WriteHeader] meaning 200, as does no call at all;
    later [WriteHeader] calls change nothing.  It is the status line the
    client gets when the handler returns. *)
Definition status_sent (calls : list WCall) : Z :=
  match calls with
  | WriteHeader code :: _ => code
  | Write _ :: _ => StatusOK
  | [] => StatusOK
  end.

(** The bytes the handler gave to the writer: the data of the [Write]
    calls, in order. *)
Fixpoint body_sent (calls : list WCall) : string :=
  match calls with
  | [] => EmptyString
  | WriteHeader _ :: rest => body_sent rest
  | Write d :: rest => d ++ body_sent rest
  end.

Definition fmt_Println (line : string) : M World unit :=
  modify (fun w => mkWorld (stdout w ++ [line]) (logged w) (ticks w) (resp w)).

Definition w_WriteHeader (code : Z) : M World unit :=
  modify (fun w => mkWorld (stdout w) (logged w) (ticks w) (resp w ++ [WriteHeader code])).

Definition w_Write (data : string) : M World unit :=
  modify (fun w => mkWorld (stdout w) (logged w) (ticks w) (resp w ++ [Write data])).

(** The local variables of [helloHandler] that its deferred closure shares
    with its body. *)
Record Locals : Type := mkLocals { err : option string; status : Z; data : string }.

Definition set_err (e : option string) : M (Locals * World) unit :=
  modify (fun lw => (mkLocals e (status (fst lw)) (data (fst lw)), snd lw)).

Definition set_status (n : Z) : M (Locals * World) unit :=
  modify (fun lw => (mkLocals (err (fst lw)) n (data (fst lw)), snd lw)).

Definition set_data (d : string) : M (Locals * World) unit :=
  modify (fun lw => (mkLocals (err (fst lw)) (status (fst lw)) d, snd lw)).

Definition locals : M (Locals * World) Locals :=
  fun lw => (Ok (fst lw), lw).

Definition helloMsgTmpl : string := "Hello, from service. Today is %s".

(** The table [isTokenTable] of the HTTP library: the bytes a method is made
    of. *)
Definition isTokenRune (c : ascii) : bool :=
  let b := N_of_ascii c in
  ((0x30 <=? b) && (b <=? 0x39) || (0x41 <=? b) && (b <=? 0x5A)
   || (0x61 <=? b) && (b <=? 0x7A)
   || (b =? 0x21) || (b =? 0x23) || (b =? 0x24) || (b =? 0x25) || (b =? 0x26)
   || (b =? 0x27) || (b =? 0x2A) || (b =? 0x2B) || (b =? 0x2D) || (b =? 0x2E)
   || (b =? 0x5E) || (b =? 0x5F) || (b =? 0x60) || (b =? 0x7C) || (b =? 0x7E))%N.

Fixpoint allTokens (m : string) : bool :=
  match m with
  | EmptyString => true
  | String c t => isTokenRune c && allTokens t
  end.

(** [validMethod]: what the server requires of the method of a request before
    any handler sees it. *)
Definition validMethod (m : string) : bool :=
  (0 <? String.length m)%nat && allTokens m.

(** [http.ServeMux] with patterns that name one path each. *)
Record ServeMux : Type := mkServeMux { routes : list (string * Handler) }.

Definition NewServeMux : ServeMux := mkServeMux [].

Definition HandleFunc (pattern : string) (h : Handler) (mux : ServeMux) : ServeMux :=
  mkServeMux (routes mux ++ [(pattern, h)]).

Section Server.

(** The reading the clock gives the [n]-th time it is read. *)
Variable clock : nat -> Time.

(** [Time.Format] with the layout [time.RFC1123Z]. *)
Variable Format_RFC1123Z : Time -> string.

(** The Unicode tables behind [%q]. *)
Variable unicode_IsPrint : N -> bool.

(** The output of the standard logger: for a call, the fault its write
    raises, if it raises one. *)
Variable log_fault : LogCall -> option string.

(** What the routing layer does with a path that no pattern names. *)
Variable unmatched : Handler.

Definition Sprintf := strconv.Sprintf unicode_IsPrint.

Definition time_Now : M World Time :=
  fun w => (Ok (clock (ticks w)), mkWorld (stdout w) (logged w) (S (ticks w)) (resp w)).

(** [time.Since]: the difference of the monotonic readings. *)
Definition time_Since (start : Time) : M World Z :=
  now <- time_Now ;;
  ret (mono now - mono start)%Z.

Definition log_Printf (fmt : string) (args : list Arg) : M World unit :=
  fun w =>
    match log_fault (mkLogCall fmt args) with
    | Some v => (Panicked v, w)
    | None =>
      (Ok tt, mkWorld (stdout w) (logged w ++ [mkLogCall fmt args]) (ticks w) (resp w))
    end.

(** [ServeMux.ServeHTTP]. *)
Definition ServeHTTP (mux : ServeMux) : Handler :=
  fun r =>
    match find (fun ph => String.eqb (fst ph) (URL_Path r)) (routes mux) with
    | Some (_, h) => h r
    | None => unmatched r
    end.

(** *** helloHandler (main.go, lines 14-56) *)

Section Hello.

(** [json.Marshal] at type [response]: the bytes and the error. *)
Variable marshal : response -> string * option string.

(** The deferred closure (lines 21-36). *)
Definition hello_deferred : M (option string * (Locals * World)) unit :=
  l <- lift locals ;;
  match err l with
  | Some e =>
    let '(d, e') := marshal (mkResponse EmptyString e) in
    lift (set_data d) ;;
    lift (set_err e') ;;
    match e' with
    | Some _ => lift (set_status StatusInternalServerError)
    | None => ret tt
    end ;;
    l' <- lift locals ;;
    lift (lift (w_Write (data l')))
  | None =>
    lift (lift (w_WriteHeader StatusOK)) ;;
    lift (lift (w_Write (data l)))
  end.

(** The switch on the method (lines 39-55). *)
Definition hello_switch (r : Request) : M (Locals * World) unit :=
  if String.eqb (Method r) MethodGet then
    now <- lift time_Now ;;
    let currentTime := Format_RFC1123Z now in
    let '(d, e) := marshal (mkResponse (Sprintf helloMsgTmpl [currentTime]) EmptyString) in
    set_data d ;;
    set_err e ;;
    match e with
    | Some _ => set_status StatusInternalServerError
    | None => ret tt
    end
  else
    set_err (Some (Sprintf "метод %q не поддерживается" [Method r])) ;;
    set_status StatusNotImplemented.

(** The whole function on its frame: the locals and the world. *)
Definition helloHandler_frame (r : Request) : M (Locals * World) unit :=
  lift (fmt_Println "hello handler") ;;
  defer hello_deferred (hello_switch r).

Definition helloHandler_with : Handler :=
  fun r w =>
    let '(res, lw) := helloHandler_frame r (mkLocals None 0%Z EmptyString, w) in
    (res, snd lw).

End Hello.

Definition helloHandler : Handler := helloHandler_with json.Marshal.

(** *** recovery (main.go, lines 59-84) *)

Definition panic_format : string := "panic: {method: %s, ip: %s, url: %s}".

Definition recovery (next : Handler) : Handler :=
  fun r =>
    fmt_Println "panic middleware" ;;
    defer
      (lift (fmt_Println "panic middleware defer") ;;
       err <- recover ;;
       match err with
       | Some v =>
         let data := fst (json.Marshal (mkResponse EmptyString (Sprintf "%v" [v]))) in
         lift (w_WriteHeader StatusInternalServerError) ;;
         lift (w_Write data) ;;
         lift (log_Printf panic_format
                 [AString (Method r); AString (RemoteAddr r); AString (URL_Path r)])
       | None => ret tt
       end)
      (next r).

(** *** accessLog (main.go, lines 87-101) *)

Definition access_format : string :=
  "access_log: {method: %s, ip: %s, url: %s, time: %s}".

Definition accessLog (next : Handler) : Handler :=
  fun r =>
    fmt_Println "access_log middleware" ;;
    start <- time_Now ;;
    next r ;;
    elapsed <- time_Since start ;;
    log_Printf access_format
      [AString (Method r); AString (RemoteAddr r); AString (URL_Path r); ADuration elapsed].

(** *** main (lines 109-122): the handler given to [http.ListenAndServe] *)

Definition main_handler : Handler :=
  let mux := HandleFunc "/hello" helloHandler NewServeMux in
  let handler := accessLog (ServeHTTP mux) in
  let handler := recovery handler in
  handler.

End Server.

(** ** A runtime and handlers to run the model on *)

Definition sample_clock (n : nat) : Time :=
  mkTime (1136239445000000000 + 1000 * Z.of_nat n) (1000 * Z.of_nat n).

Definition sample_Format (t : Time) : string := "Mon, 02 Jan 2006 15:04:05 -0700".

Definition sample_IsPrint (r : N) : bool := true.

(** The standard error of the process: its writes do not fault. *)
Definition stderr (c : LogCall) : option string := None.


(** [http.NotFound]. *)
Definition NotFound : Handler :=
  fun _ =>
    (w_WriteHeader 404 ;; w_Write ("404 page not found" ++ String "010"%char EmptyString))%go.

(** A handler that faults at once, and one that faults after it has written. *)
Definition faulting : Handler :=
  fun _ => panic "runtime error: integer divide by zero".

Definition writes_then_faults : Handler :=
  fun _ => (w_Write "partial" ;; panic "boom")%go.

(** The world at the start of a request: nothing printed, logged or written. *)
Definition fresh : World := mkWorld [] [] 0 [].

Definition is_access (c : LogCall) : bool := String.eqb (format c) access_format.

(** How many access-log lines a log holds. *)
Definition count_access (l : list LogCall) : nat := List.length (filter is_access l).

(** ** Worlds and values the statements speak of *)

(** The world once a line is printed, once the clock is read, once a call is
    logged. *)
Definition printed (line : string) (w : World) : World :=
  mkWorld (stdout w ++ [line]) (logged w) (ticks w) (resp w).

Definition clock_read (w : World) : World :=
  mkWorld (stdout w) (logged w) (S (ticks w)) (resp w).

Definition logging (c : LogCall) (w : World) : World :=
  mkWorld (stdout w) (logged w ++ [c]) (ticks w) (resp w).

(** The world in which [accessLog] calls the handler it wraps. *)
Definition timing (w : World) : World :=
  mkWorld (stdout w ++ ["access_log middleware"]) (logged w) (S (ticks w)) (resp w).

(** The world left by [helloHandler] when it made the calls [calls]. *)
Definition answered (calls : list WCall) (w : World) : World :=
  mkWorld (stdout w ++ ["hello handler"]) (logged w) (ticks w) (resp w ++ calls).

(** The world once the deferred call of [recovery] has answered the panic [v]. *)
Definition intercepted (v : string) (w1 : World) : World :=
  mkWorld (stdout w1 ++ ["panic middleware defer"]) (logged w1) (ticks w1)
    (resp w1 ++ [WriteHeader StatusInternalServerError;
                 Write (fst (json.Marshal (mkResponse EmptyString v)))]).

(** The log call of [recovery] and that of [accessLog]. *)
Definition panic_line (r : Request) : LogCall :=
  mkLogCall panic_format [AString (Method r); AString (RemoteAddr r); AString (URL_Path r)].

Definition access_line (r : Request) (elapsed : Z) : LogCall :=
  mkLogCall access_format
    [AString (Method r); AString (RemoteAddr r); AString (URL_Path r); ADuration elapsed].

(** The locals of [helloHandler] at entry. *)
Definition zero_locals : Locals := mkLocals None 0%Z EmptyString.

Section Statements.

Variable clock : nat -> Time.
Variable Format_RFC1123Z : Time -> string.
Variable unicode_IsPrint : N -> bool.
Variable log_fault : LogCall -> option string.

(** The time [accessLog] measures between the worlds [w] and [w2]. *)
Definition elapsed_at (w w2 : World) : Z :=
  (mono (clock (ticks w2)) - mono (clock (ticks w)))%Z.

(** The clock never runs backwards. *)
Definition monotone : Prop :=
  forall i j, (i <= j)%nat -> (mono (clock i) <= mono (clock j))%Z.

(** The text of the success message when the clock is read in [w]. *)
Definition greeting (w : World) : string :=
  ("Hello, from service. Today is " ++ Format_RFC1123Z (clock (ticks w)))%string.

(** The text of the error for the method [m]. *)
Definition unsupported (m : string) : string :=
  ("метод " ++ strconv.Quote unicode_IsPrint m ++ " не поддерживается")%string.

(** The route table [main] builds. *)
Definition the_mux : ServeMux :=
  HandleFunc "/hello" (helloHandler clock Format_RFC1123Z unicode_IsPrint) NewServeMux.

(** One party wrote the response: the handler wrote nothing, or the
    middleware added nothing to what the handler wrote. *)
Definition single_writer (H : Handler) (r : Request) (w : World) : Prop :=
  let w1 := snd (H r (printed "panic middleware" w)) in
  let w2 := snd (recovery unicode_IsPrint log_fault H r w) in
  resp w1 = resp w \/ resp w2 = resp w1.

End Statements.

(** The claim that [recovery] is wrapped by [accessLog], as the equation it
    would be. *)
Definition log_outermost (clock : nat -> Time) (Format_RFC1123Z : Time -> string)
    (unicode_IsPrint : N -> bool) (log_fault : LogCall -> option string)
    (unmatched : Handler) : Prop :=
  main_handler clock Format_RFC1123Z unicode_IsPrint log_fault unmatched
  = accessLog clock log_fault
      (recovery unicode_IsPrint log_fault
         (ServeHTTP unmatched (the_mux clock Format_RFC1123Z unicode_IsPrint))).


(** Requests to run the model on. *)
Definition get_hello : Request := mkRequest "GET" "127.0.0.1:51234" "/hello".
Definition post_hello : Request := mkRequest "POST" "127.0.0.1:51234" "/hello".
Definition get_other : Request := mkRequest "GET" "127.0.0.1:51234" "/other".

(** The English wording of the error for the method [m]. *)
Definition english_unsupported (m : string) : string :=
  ("method " ++ String dquote (m ++ String dquote " not supported"))%string.

(** A byte that is no UTF-8 on its own. *)
Definition lone_byte : string := String (ascii_of_N 255) EmptyString.

(** ** What the client gets *)

Definition MethodHead : string := "HEAD".

(** [bodyAllowedForStatus] of net/http. *)
Definition bodyAllowedForStatus (status : Z) : bool :=
  if ((100 <=? status) && (status <=? 199))%Z then false
  else if (status =? 204)%Z then false
  else if (status =? 304)%Z then false
  else true.

(** The body net/http sends for the calls the handler made on the writer:
    the writer of net/http takes the bytes of a [Write] and sends none of
    them when the request is a HEAD, and refuses them when the status allows
    no body. *)
Definition sent_body (r : Request) (calls : list WCall) : string :=
  if String.eqb (Method r) MethodHead || negb (bodyAllowedForStatus (status_sent calls))
  then EmptyString
  else body_sent calls.

(** The end of a request for the client: an answer with its status and its
    body, or a connection closed with no answer. *)
Inductive Exchange : Type :=
| Answered (status : Z) (body : string)
| Aborted.

(** What the server of net/http makes of the handler [h] run on a writer not
    used before: when [h] returns, the answer its calls on the writer decide;
    when a panic leaves [h], the server logs it and closes the connection,
    and the client gets no status line. *)
Definition served (h : Handler) (r : Request) (w : World) : Exchange :=
  match h r w with
  | (Ok _, w') => Answered (status_sent (resp w')) (sent_body r (resp w'))
  | (Panicked _, _) => Aborted
  end.

Definition head_hello : Request := mkRequest "HEAD" "127.0.0.1:51234" "/hello".

(** ** Bytes, envelopes and requests for the further properties *)


(** A method that is no token: a space and a double quote in it. *)
Definition odd_method : string := "GE T" ++ String dquote EmptyString.

(** The envelope holds one field and not the other. *)
Definition one_field (e : response) : Prop :=
  (Data e <> EmptyString /\ Error e = EmptyString)
  \/ (Data e = EmptyString /\ Error e <> EmptyString).

(** Every byte of [s] passes the test [p]. *)
Fixpoint all_bytes (p : ascii -> bool) (s : string) : bool :=
  match s with
  | EmptyString => true
  | String c t => p c && all_bytes p t
  end.

(** A byte that is no control character and none of the three characters
    with a meaning in HTML: the less-than sign, the greater-than sign and the
    ampersand. *)
Definition inert_byte (c : ascii) : bool :=
  let b := N_of_ascii c in
  ((0x20 <=? b) && negb (b =? 0x3C) && negb (b =? 0x3E) && negb (b =? 0x26))%N.

(** A byte that is not ASCII. *)
Definition high_byte (c : ascii) : bool := (0x80 <=? N_of_ascii c)%N.

(** An ASCII byte. *)
Definition low_byte (c : ascii) : bool := (N_of_ascii c <? 0x80)%N.

(** A request to /hello whose method is no token. *)
Definition odd_hello : Request := mkRequest odd_method "127.0.0.1:51234" "/hello".

(** * Facts *)

(** ** UTF-8: decoding and encoding agree *)
Module utf8_facts.
Import utf8.
Local Open Scope N_scope.

Ltac dlia :=
  change (2 ^ 18) with 262144 in *; change (2 ^ 12) with 4096 in *;
  change (2 ^ 6) with 64 in *;
  zify; Z.to_euclidean_division_equations; lia.

Lemma lor_disjoint (a b k : N) :
  a mod 2 ^ k = 0 -> b < 2 ^ k -> N.lor a b = a + b.
Proof.
  intros Ha Hb.
  assert (Hland : N.land a b = 0).
  { apply N.bits_inj. intros n. rewrite N.land_spec, N.bits_0.
    destruct (N.lt_ge_cases n k) as [Hlt | Hge].
    - rewrite <- (N.mod_pow2_bits_low a k n Hlt), Ha, N.bits_0. reflexivity.
    - rewrite <- (N.mod_small b (2 ^ k) Hb), (N.mod_pow2_bits_high b k n Hge).
      apply andb_false_r. }
  rewrite (N.add_nocarry_lxor _ _ Hland). symmetry. apply N.lxor_lor, Hland.
Qed.

Lemma land_mask (x k : N) : N.land x (N.ones k) = x mod 2 ^ k.
Proof. apply N.land_ones. Qed.

Lemma land_FF x : N.land x 0xFF = x mod 256.
Proof. exact (land_mask x 8). Qed.
Lemma land_3F x : N.land x maskx = x mod 64.
Proof. exact (land_mask x 6). Qed.
Lemma land_1F x : N.land x mask2 = x mod 32.
Proof. exact (land_mask x 5). Qed.
Lemma land_0F x : N.land x mask3 = x mod 16.
Proof. exact (land_mask x 4). Qed.
Lemma land_07 x : N.land x mask4 = x mod 8.
Proof. exact (land_mask x 3). Qed.

Lemma shiftr_6 x : N.shiftr x 6 = x / 64.
Proof. exact (N.shiftr_div_pow2 x 6). Qed.
Lemma shiftr_12 x : N.shiftr x 12 = x / 4096.
Proof. exact (N.shiftr_div_pow2 x 12). Qed.
Lemma shiftr_18 x : N.shiftr x 18 = x / 262144.
Proof. exact (N.shiftr_div_pow2 x 18). Qed.
Lemma shiftl_6 x : N.shiftl x 6 = x * 64.
Proof. exact (N.shiftl_mul_pow2 x 6). Qed.
Lemma shiftl_12 x : N.shiftl x 12 = x * 4096.
Proof. exact (N.shiftl_mul_pow2 x 12). Qed.
Lemma shiftl_18 x : N.shiftl x 18 = x * 262144.
Proof. exact (N.shiftl_mul_pow2 x 18). Qed.


Lemma rune2_eq b0 b1 :
  N.lor (N.shiftl (N.land b0 mask2) 6) (N.land b1 maskx) = (b0 mod 32) * 64 + b1 mod 64.
Proof.
  rewrite land_1F, land_3F, shiftl_6.
  apply (lor_disjoint _ _ 6); [ apply N.Div0.mod_mul | dlia ].
Qed.

Lemma rune3_eq b0 b1 b2 :
  N.lor (N.lor (N.shiftl (N.land b0 mask3) 12) (N.shiftl (N.land b1 maskx) 6))
        (N.land b2 maskx)
  = (b0 mod 16) * 4096 + (b1 mod 64) * 64 + b2 mod 64.
Proof.
  rewrite land_0F, !land_3F, shiftl_6, shiftl_12.
  rewrite (lor_disjoint (b0 mod 16 * 4096) _ 12); [ | dlia | dlia ].
  apply (lor_disjoint _ _ 6); dlia.
Qed.

Lemma rune4_eq b0 b1 b2 b3 :
  N.lor (N.lor (N.lor (N.shiftl (N.land b0 mask4) 18) (N.shiftl (N.land b1 maskx) 12))
               (N.shiftl (N.land b2 maskx) 6))
        (N.land b3 maskx)
  = (b0 mod 8) * 262144 + (b1 mod 64) * 4096 + (b2 mod 64) * 64 + b3 mod 64.
Proof.
  rewrite land_07, !land_3F, shiftl_6, shiftl_12, shiftl_18.
  rewrite (lor_disjoint (b0 mod 8 * 262144) _ 18); [ | dlia | dlia ].
  rewrite (lor_disjoint (b0 mod 8 * 262144 + b1 mod 64 * 4096) _ 12); [ | dlia | dlia ].
  apply (lor_disjoint _ _ 6); dlia.
Qed.

Lemma byte_of_small z : z < 256 -> byte_of z = ascii_of_N z.
Proof. intros H. unfold byte_of. rewrite land_FF, N.mod_small; auto. Qed.

Lemma ascii_of_N_eq c z : N_of_ascii c = z -> ascii_of_N z = c.
Proof. intros <-. apply ascii_N_embedding. Qed.

Lemma lor_t2 x : x < 64 -> N.lor t2 x = 192 + x.
Proof. intros H. apply (lor_disjoint 192 x 6); [ reflexivity | exact H ]. Qed.
Lemma lor_tx x : x < 64 -> N.lor tx x = 128 + x.
Proof. intros H. apply (lor_disjoint 128 x 6); [ reflexivity | exact H ]. Qed.
Lemma lor_t3 x : x < 16 -> N.lor t3 x = 224 + x.
Proof. intros H. apply (lor_disjoint 224 x 4); [ reflexivity | exact H ]. Qed.
Lemma lor_t4 x : x < 8 -> N.lor t4 x = 240 + x.
Proof. intros H. apply (lor_disjoint 240 x 3); [ reflexivity | exact H ]. Qed.

Ltac decide_tests :=
  repeat match goal with
  | |- context [ ?a <=? ?b ] => destruct (N.leb_spec a b); try (exfalso; dlia)
  | |- context [ ?a <? ?b ] => destruct (N.ltb_spec a b); try (exfalso; dlia)
  | |- context [ ?a =? ?b ] => destruct (N.eqb_spec a b); try (exfalso; dlia)
  end.

Lemma EncodeRune_2 r c0 c1 :
  0x80 <= r <= 0x7FF ->
  N_of_ascii c0 = 192 + r / 64 -> N_of_ascii c1 = 128 + r mod 64 ->
  EncodeRune r = String c0 (String c1 EmptyString).
Proof.
  intros Hr H0 H1. unfold EncodeRune, rune1Max, rune2Max.
  decide_tests.
  rewrite shiftr_6, land_3F, lor_t2, lor_tx by dlia.
  rewrite !byte_of_small by dlia.
  rewrite (ascii_of_N_eq c0), (ascii_of_N_eq c1) by assumption. reflexivity.
Qed.

Lemma not_replaced r :
  r <= 0x10FFFF -> ~ (0xD800 <= r <= 0xDFFF) ->
  (MaxRune <? r) || ((surrogateMin <=? r) && (r <=? surrogateMax)) = false.
Proof.
  intros H1 H2. unfold MaxRune, surrogateMin, surrogateMax.
  destruct (N.ltb_spec 0x10FFFF r); [ lia | ].
  destruct (N.leb_spec 0xD800 r); [ | reflexivity ].
  destruct (N.leb_spec r 0xDFFF); [ lia | reflexivity ].
Qed.

Lemma EncodeRune_3 r c0 c1 c2 :
  0x800 <= r <= 0xFFFF -> ~ (0xD800 <= r <= 0xDFFF) ->
  N_of_ascii c0 = 224 + r / 4096 ->
  N_of_ascii c1 = 128 + (r / 64) mod 64 ->
  N_of_ascii c2 = 128 + r mod 64 ->
  EncodeRune r = String c0 (String c1 (String c2 EmptyString)).
Proof.
  intros Hr Hs H0 H1 H2.
  unfold EncodeRune. rewrite not_replaced by lia.
  unfold rune1Max, rune2Max, rune3Max. decide_tests.
  rewrite shiftr_6, shiftr_12, !land_3F, lor_t3, !lor_tx by dlia.
  rewrite !byte_of_small by dlia.
  rewrite (ascii_of_N_eq c0), (ascii_of_N_eq c1), (ascii_of_N_eq c2) by assumption.
  reflexivity.
Qed.

Lemma EncodeRune_4 r c0 c1 c2 c3 :
  0x10000 <= r <= 0x10FFFF ->
  N_of_ascii c0 = 240 + r / 262144 ->
  N_of_ascii c1 = 128 + (r / 4096) mod 64 ->
  N_of_ascii c2 = 128 + (r / 64) mod 64 ->
  N_of_ascii c3 = 128 + r mod 64 ->
  EncodeRune r = String c0 (String c1 (String c2 (String c3 EmptyString))).
Proof.
  intros Hr H0 H1 H2 H3.
  unfold EncodeRune. rewrite not_replaced by lia.
  unfold rune1Max, rune2Max, rune3Max. decide_tests.
  rewrite shiftr_6, shiftr_12, shiftr_18, !land_3F, lor_t4, !lor_tx by dlia.
  rewrite !byte_of_small by dlia.
  rewrite (ascii_of_N_eq c0), (ascii_of_N_eq c1), (ascii_of_N_eq c2), (ascii_of_N_eq c3)
    by assumption.
  reflexivity.
Qed.

Lemma first_cases b :
  0x80 <= b < 256 ->
  first b = xx \/
  (0xC2 <= b <= 0xDF /\ first b = s1) \/
  (b = 0xE0 /\ first b = s2) \/
  ((0xE1 <= b <= 0xEC \/ 0xEE <= b <= 0xEF) /\ first b = s3) \/
  (b = 0xED /\ first b = s4) \/
  (b = 0xF0 /\ first b = s5) \/
  (0xF1 <= b <= 0xF3 /\ first b = s6) \/
  (b = 0xF4 /\ first b = s7).
Proof.
  intros Hb. unfold first. decide_tests; intuition lia.
Qed.

Local Arguments N_of_ascii : simpl never.



Section DecodeSteps.
Variables (c0 : ascii) (x lo hi : N).
Hypothesis Hfirst : first (N_of_ascii c0) = x.
Hypothesis Hmulti : (as_ <=? x) = false.
Hypothesis Haccept : acceptRanges (N.shiftr x 4) = (lo, hi).

Lemma decode_short : 
  DecodeRuneInString (String c0 EmptyString) = (RuneError, 1%nat).
Proof.
  unfold DecodeRuneInString. cbv zeta. rewrite Hfirst, Hmulti, Haccept.
  destruct (String.length (String c0 EmptyString) <? N.to_nat (N.land x 7))%nat; reflexivity.
Qed.

Lemma decode_bad1 c1 X :
  N_of_ascii c1 < lo \/ hi < N_of_ascii c1 ->
  DecodeRuneInString (String c0 (String c1 X)) = (RuneError, 1%nat).
Proof.
  intros Hb. unfold DecodeRuneInString. cbv zeta. rewrite Hfirst, Hmulti, Haccept.
  destruct (String.length (String c0 (String c1 X)) <? N.to_nat (N.land x 7))%nat;
    [ reflexivity | ].
  destruct (N.ltb_spec (N_of_ascii c1) lo); [ reflexivity | ].
  destruct (N.ltb_spec hi (N_of_ascii c1)); [ reflexivity | lia ].
Qed.

Lemma decode_2 c1 X :
  N.to_nat (N.land x 7) = 2%nat ->
  lo <= N_of_ascii c1 <= hi ->
  DecodeRuneInString (String c0 (String c1 X))
  = (N_of_ascii c0 mod 32 * 64 + N_of_ascii c1 mod 64, 2%nat).
Proof.
  intros Hsz Hb. unfold DecodeRuneInString. cbv zeta. rewrite Hfirst, Hmulti, Haccept, Hsz.
  change (String.length (String c0 (String c1 X)) <? 2)%nat with false. cbv iota.
  destruct (N.ltb_spec (N_of_ascii c1) lo); [ lia | ].
  destruct (N.ltb_spec hi (N_of_ascii c1)); [ lia | ].
  cbn [orb Nat.leb]. rewrite rune2_eq. reflexivity.
Qed.

Lemma decode_short2 c1 :
  (3 <= N.to_nat (N.land x 7))%nat ->
  DecodeRuneInString (String c0 (String c1 EmptyString)) = (RuneError, 1%nat).
Proof.
  intros Hsz. unfold DecodeRuneInString. cbv zeta. rewrite Hfirst, Hmulti, Haccept.
  destruct (String.length (String c0 (String c1 EmptyString)) <? N.to_nat (N.land x 7))%nat eqn:E;
    [ reflexivity | ].
  apply Nat.ltb_ge in E. cbn in E. lia.
Qed.

Lemma decode_bad2 c1 c2 X :
  (3 <= N.to_nat (N.land x 7))%nat ->
  N_of_ascii c2 < locb \/ hicb < N_of_ascii c2 ->
  DecodeRuneInString (String c0 (String c1 (String c2 X))) = (RuneError, 1%nat).
Proof.
  intros Hsz Hb. unfold DecodeRuneInString. cbv zeta. rewrite Hfirst, Hmulti, Haccept.
  destruct (String.length (String c0 (String c1 (String c2 X))) <? N.to_nat (N.land x 7))%nat;
    [ reflexivity | ].
  destruct ((N_of_ascii c1 <? lo) || (hi <? N_of_ascii c1)); [ reflexivity | ].
  destruct (Nat.leb_spec (N.to_nat (N.land x 7)) 2); [ lia | ].
  destruct (N.ltb_spec (N_of_ascii c2) locb); [ reflexivity | ].
  destruct (N.ltb_spec hicb (N_of_ascii c2)); [ reflexivity | lia ].
Qed.

Lemma decode_3 c1 c2 X :
  N.to_nat (N.land x 7) = 3%nat ->
  lo <= N_of_ascii c1 <= hi ->
  locb <= N_of_ascii c2 <= hicb ->
  DecodeRuneInString (String c0 (String c1 (String c2 X)))
  = (N_of_ascii c0 mod 16 * 4096 + N_of_ascii c1 mod 64 * 64 + N_of_ascii c2 mod 64, 3%nat).
Proof.
  intros Hsz Hb1 Hb2. unfold DecodeRuneInString. cbv zeta.
  rewrite Hfirst, Hmulti, Haccept, Hsz.
  change (String.length (String c0 (String c1 (String c2 X))) <? 3)%nat with false. cbv iota.
  destruct (N.ltb_spec (N_of_ascii c1) lo); [ lia | ].
  destruct (N.ltb_spec hi (N_of_ascii c1)); [ lia | ].
  destruct (N.ltb_spec (N_of_ascii c2) locb); [ lia | ].
  destruct (N.ltb_spec hicb (N_of_ascii c2)); [ lia | ].
  cbn [orb Nat.leb]. rewrite rune3_eq. reflexivity.
Qed.

Lemma decode_short3 c1 c2 :
  N.to_nat (N.land x 7) = 4%nat ->
  DecodeRuneInString (String c0 (String c1 (String c2 EmptyString))) = (RuneError, 1%nat).
Proof.
  intros Hsz. unfold DecodeRuneInString. cbv zeta. rewrite Hfirst, Hmulti, Haccept, Hsz.
  reflexivity.
Qed.

Lemma decode_bad3 c1 c2 c3 X :
  N.to_nat (N.land x 7) = 4%nat ->
  N_of_ascii c3 < locb \/ hicb < N_of_ascii c3 ->
  DecodeRuneInString (String c0 (String c1 (String c2 (String c3 X)))) = (RuneError, 1%nat).
Proof.
  intros Hsz Hb. unfold DecodeRuneInString. cbv zeta. rewrite Hfirst, Hmulti, Haccept, Hsz.
  change (String.length (String c0 (String c1 (String c2 (String c3 X)))) <? 4)%nat with false.
  cbv iota.
  destruct ((N_of_ascii c1 <? lo) || (hi <? N_of_ascii c1)); [ reflexivity | ].
  destruct ((N_of_ascii c2 <? locb) || (hicb <? N_of_ascii c2)); [ reflexivity | ].
  cbn [Nat.leb].
  destruct (N.ltb_spec (N_of_ascii c3) locb); [ reflexivity | ].
  destruct (N.ltb_spec hicb (N_of_ascii c3)); [ reflexivity | lia ].
Qed.

Lemma decode_4 c1 c2 c3 X :
  N.to_nat (N.land x 7) = 4%nat ->
  lo <= N_of_ascii c1 <= hi ->
  locb <= N_of_ascii c2 <= hicb ->
  locb <= N_of_ascii c3 <= hicb ->
  DecodeRuneInString (String c0 (String c1 (String c2 (String c3 X))))
  = (N_of_ascii c0 mod 8 * 262144 + N_of_ascii c1 mod 64 * 4096
     + N_of_ascii c2 mod 64 * 64 + N_of_ascii c3 mod 64, 4%nat).
Proof.
  intros Hsz Hb1 Hb2 Hb3. unfold DecodeRuneInString. cbv zeta.
  rewrite Hfirst, Hmulti, Haccept, Hsz.
  change (String.length (String c0 (String c1 (String c2 (String c3 X)))) <? 4)%nat with false.
  cbv iota.
  destruct (N.ltb_spec (N_of_ascii c1) lo); [ lia | ].
  destruct (N.ltb_spec hi (N_of_ascii c1)); [ lia | ].
  destruct (N.ltb_spec (N_of_ascii c2) locb); [ lia | ].
  destruct (N.ltb_spec hicb (N_of_ascii c2)); [ lia | ].
  destruct (N.ltb_spec (N_of_ascii c3) locb); [ lia | ].
  destruct (N.ltb_spec hicb (N_of_ascii c3)); [ lia | ].
  cbn [orb Nat.leb]. rewrite rune4_eq. reflexivity.
Qed.

End DecodeSteps.

Ltac split_range c lo hi :=
  destruct (N.lt_ge_cases (N_of_ascii c) lo);
  [ | destruct (N.lt_ge_cases hi (N_of_ascii c)) ].

Ltac width2 Hf :=
  match goal with
  | |- Decodes ?c0 ?t _ _ =>
    destruct t as [ | c1 t1 ];
    [ rewrite (decode_short c0 _ locb hicb Hf eq_refl eq_refl); constructor
    | split_range c1 locb hicb;
      [ rewrite (decode_bad1 c0 _ locb hicb Hf eq_refl eq_refl) by (left; assumption);
        constructor
      | rewrite (decode_bad1 c0 _ locb hicb Hf eq_refl eq_refl) by (right; assumption);
        constructor
      | rewrite (decode_2 c0 _ locb hicb Hf eq_refl eq_refl) by (reflexivity || lia);
        unfold locb, hicb in *; cbn [fst snd];
        eapply Decodes_2;
        [ reflexivity | dlia | apply EncodeRune_2; dlia
        | intros X; apply (decode_2 c0 _ locb hicb Hf eq_refl eq_refl);
          unfold locb, hicb; (reflexivity || lia) ] ] ]
  end.

Ltac width3 Hf lo hi :=
  match goal with
  | |- Decodes ?c0 ?t _ _ =>
    destruct t as [ | c1 [ | c2 t2 ] ];
    [ rewrite (decode_short c0 _ lo hi Hf eq_refl eq_refl); constructor
    | rewrite (decode_short2 c0 _ lo hi Hf eq_refl eq_refl) by (cbn; lia); constructor
    | split_range c1 lo hi;
      [ rewrite (decode_bad1 c0 _ lo hi Hf eq_refl eq_refl) by (left; assumption);
        constructor
      | rewrite (decode_bad1 c0 _ lo hi Hf eq_refl eq_refl) by (right; assumption);
        constructor
      | split_range c2 locb hicb;
        [ rewrite (decode_bad2 c0 _ lo hi Hf eq_refl eq_refl) by ((cbn; lia) || (left; assumption));
          constructor
        | rewrite (decode_bad2 c0 _ lo hi Hf eq_refl eq_refl) by ((cbn; lia) || (right; assumption));
          constructor
        | rewrite (decode_3 c0 _ lo hi Hf eq_refl eq_refl) by (reflexivity || lia);
          unfold locb, hicb in *; cbn [fst snd];
          eapply Decodes_3;
          [ reflexivity | dlia | apply EncodeRune_3; dlia
          | intros X; apply (decode_3 c0 _ lo hi Hf eq_refl eq_refl);
            unfold locb, hicb; (reflexivity || lia) ] ] ] ]
  end.

Ltac width4 Hf lo hi :=
  match goal with
  | |- Decodes ?c0 ?t _ _ =>
    destruct t as [ | c1 [ | c2 [ | c3 t3 ] ] ];
    [ rewrite (decode_short c0 _ lo hi Hf eq_refl eq_refl); constructor
    | rewrite (decode_short2 c0 _ lo hi Hf eq_refl eq_refl) by (cbn; lia); constructor
    | rewrite (decode_short3 c0 _ lo hi Hf eq_refl eq_refl) by reflexivity; constructor
    | split_range c1 lo hi;
      [ rewrite (decode_bad1 c0 _ lo hi Hf eq_refl eq_refl) by (left; assumption);
        constructor
      | rewrite (decode_bad1 c0 _ lo hi Hf eq_refl eq_refl) by (right; assumption);
        constructor
      | split_range c2 locb hicb;
        [ rewrite (decode_bad2 c0 _ lo hi Hf eq_refl eq_refl) by ((cbn; lia) || (left; assumption));
          constructor
        | rewrite (decode_bad2 c0 _ lo hi Hf eq_refl eq_refl) by ((cbn; lia) || (right; assumption));
          constructor
        | split_range c3 locb hicb;
          [ rewrite (decode_bad3 c0 _ lo hi Hf eq_refl eq_refl) by (reflexivity || (left; assumption));
            constructor
          | rewrite (decode_bad3 c0 _ lo hi Hf eq_refl eq_refl) by (reflexivity || (right; assumption));
            constructor
          | rewrite (decode_4 c0 _ lo hi Hf eq_refl eq_refl) by (reflexivity || lia);
            unfold locb, hicb in *; cbn [fst snd];
            eapply Decodes_4;
            [ reflexivity | dlia | apply EncodeRune_4; dlia
            | intros X; apply (decode_4 c0 _ lo hi Hf eq_refl eq_refl);
              unfold locb, hicb; (reflexivity || lia) ] ] ] ] ]
  end.

Lemma decode_spec c0 t :
  0x80 <= N_of_ascii c0 ->
  Decodes c0 t (fst (DecodeRuneInString (String c0 t))) (snd (DecodeRuneInString (String c0 t))).
Proof.
  intros H0. pose proof (N_ascii_bounded c0) as B0.
  destruct (first_cases (N_of_ascii c0) (conj H0 B0))
    as [Hf | [[R Hf] | [[R Hf] | [[R Hf] | [[R Hf] | [[R Hf] | [[R Hf] | [R Hf]]]]]]]].
  - unfold DecodeRuneInString. cbv zeta. rewrite Hf. constructor.
  - width2 Hf.
  - width3 Hf 0xA0 hicb.
  - width3 Hf locb hicb.
  - width3 Hf locb 0x9F.
  - width4 Hf 0x90 hicb.
  - width4 Hf locb hicb.
  - width4 Hf locb 0x8F.
Qed.
End utf8_facts.

(** ** JSON: a literal reads back *)
Module json_facts.
Import utf8 json utf8_facts.
Local Open Scope N_scope.
Local Arguments N_of_ascii : simpl never.

Lemma app_assoc (a b c : string) : ((a ++ b) ++ c = a ++ (b ++ c))%string.
Proof. induction a as [ | x a IH ]; cbn; [ reflexivity | rewrite IH; reflexivity ]. Qed.

Lemma app_length (a b : string) :
  String.length (a ++ b) = (String.length a + String.length b)%nat.
Proof. induction a as [ | x a IH ]; cbn; [ reflexivity | rewrite IH; reflexivity ]. Qed.

Lemma escape_byte_length c : (1 <= String.length (escape_byte c))%nat.
Proof.
  unfold escape_byte.
  repeat match goal with
         | |- context [ if ?b then _ else _ ] => destruct b
         end; cbn; lia.
Qed.

(** One round of the reader undoes what the encoder wrote for an ASCII byte. *)
Lemma read_escape_byte c fuel X :
  N_of_ascii c < 0x80 ->
  read_string (S fuel) (escape_byte c ++ X)
  = prepend (String c EmptyString) (read_string fuel X).
Proof.
  intros Hc.
  destruct c as [b0 b1 b2 b3 b4 b5 b6 [ | ]];
    [ exfalso; destruct b0, b1, b2, b3, b4, b5, b6; vm_compute in Hc; discriminate | ].
  destruct b0, b1, b2, b3, b4, b5, b6; reflexivity.
Qed.

Lemma read_raw c tail fuel :
  0x80 <= N_of_ascii c ->
  read_string (S fuel) (String c tail)
  = prepend (EncodeRune (fst (DecodeRuneInString (String c tail))))
      (read_string fuel (skip (snd (DecodeRuneInString (String c tail))) (String c tail))).
Proof.
  intros Hc. cbn [read_string]. unfold RuneSelf.
  decide_tests.
  destruct (DecodeRuneInString (String c tail)); reflexivity.
Qed.


Lemma not_sep_low r : r <= 0x7FF -> (r =? 0x2028) || (r =? 0x2029) = false.
Proof. intros H. decide_tests. reflexivity. Qed.

Lemma not_sep_high r : 0x10000 <= r -> (r =? 0x2028) || (r =? 0x2029) = false.
Proof. intros H. decide_tests. reflexivity. Qed.

Lemma read_escape n :
  forall s fuel rest,
    (String.length s <= n)%nat ->
    (String.length (escape s) < fuel)%nat ->
    read_string fuel (escape s ++ String dquote rest) = Some (coerced s, rest).
Proof.
  induction n as [ | n IH ]; intros s fuel rest Hn Hfuel.
  - destruct s; [ | cbn in Hn; lia ].
    destruct fuel; [ lia | ]. reflexivity.
  - destruct s as [ | c t ].
    { destruct fuel; [ lia | ]. reflexivity. }
    destruct fuel as [ | fuel ]; [ lia | ].
    cbn [String.length] in Hn.
    destruct (N.lt_ge_cases (N_of_ascii c) 0x80) as [Hlo | Hhi].
    + (* an ASCII byte *)
      assert (Hlt : (N_of_ascii c <? RuneSelf) = true) by (apply N.ltb_lt; exact Hlo).
      cbn [escape coerced] in Hfuel |- *. rewrite Hlt in Hfuel |- *.
      rewrite app_length in Hfuel. pose proof (escape_byte_length c).
      rewrite app_assoc, read_escape_byte, IH by (assumption || lia). reflexivity.
    + (* a lead byte *)
      assert (Hge : (N_of_ascii c <? RuneSelf) = false) by (apply N.ltb_ge; exact Hhi).
      pose proof (decode_spec c t Hhi) as D.
      cbn [escape coerced]. cbn [escape] in Hfuel. rewrite Hge in Hfuel |- *.
      destruct (DecodeRuneInString (String c t)) as [r size] eqn:ED.
      cbn [fst snd] in D |- *.
      inversion D as [ Hr Hs | c1 t1 r' Ht Hrange Henc Hpre Hr Hs
                     | c1 c2 t2 r' Ht Hrange Henc Hpre Hr Hs
                     | c1 c2 c3 t3 r' Ht Hrange Henc Hpre Hr Hs ]; subst.
      * (* invalid: the replacement rune *)
        change ((RuneError =? RuneError) && (1 =? 1)%nat) with true in Hfuel |- *.
        cbv iota in Hfuel |- *. rewrite app_length in Hfuel. cbn [String.length] in Hfuel.
        rewrite app_assoc.
        change (read_string (S fuel) (String bslash "ufffd" ++ (escape t ++ String dquote rest)))
          with (prepend (EncodeRune RuneError) (read_string fuel (escape t ++ String dquote rest))).
        rewrite IH by (cbn in Hfuel; lia).
        destruct t as [ | ? [ | ? [ | ? ? ] ] ]; reflexivity.
      * (* two bytes *)
        rewrite (not_sep_low r) in Hfuel |- * by lia.
        replace ((r =? RuneError) && (2 =? 1)%nat) with false in Hfuel |- *
          by (rewrite andb_false_r; reflexivity).
        cbv iota in Hfuel |- *. cbn [append String.length] in Hfuel |- *.
        rewrite read_raw, Hpre by exact Hhi. cbn [fst snd skip].
        rewrite IH, Henc by (cbn in Hn; lia). reflexivity.
      * (* three bytes *)
        replace ((r =? RuneError) && (3 =? 1)%nat) with false in Hfuel |- *
          by (rewrite andb_false_r; reflexivity).
        cbv iota in Hfuel |- *.
        assert (Hfuel' : (String.length (escape t2) < fuel)%nat).
        { destruct ((r =? 0x2028) || (r =? 0x2029));
            rewrite app_length in Hfuel; cbn [append String.length] in Hfuel; lia. }
        destruct (N.eqb_spec r 0x2028) as [-> | N1];
          [ | destruct (N.eqb_spec r 0x2029) as [-> | N2] ]; cbn [orb].
        -- rewrite app_assoc.
           change (read_string (S fuel) _)
             with (prepend (EncodeRune 0x2028) (read_string fuel (escape t2 ++ String dquote rest))).
           rewrite IH, Henc by (cbn in Hn; lia). reflexivity.
        -- rewrite app_assoc.
           change (read_string (S fuel) _)
             with (prepend (EncodeRune 0x2029) (read_string fuel (escape t2 ++ String dquote rest))).
           rewrite IH, Henc by (cbn in Hn; lia). reflexivity.
        -- cbn [append].
           rewrite read_raw, Hpre by exact Hhi. cbn [fst snd skip].
           rewrite IH, Henc by (cbn in Hn; lia). reflexivity.
      * (* four bytes *)
        rewrite (not_sep_high r) in Hfuel |- * by lia.
        replace ((r =? RuneError) && (4 =? 1)%nat) with false in Hfuel |- *
          by (rewrite andb_false_r; reflexivity).
        cbv iota in Hfuel |- *. cbn [append String.length] in Hfuel |- *.
        rewrite read_raw, Hpre by exact Hhi. cbn [fst snd skip].
        rewrite IH, Henc by (cbn in Hn; lia). reflexivity.
Qed.

(** Valid UTF-8 is left as it is. *)
Lemma coerced_valid n :
  forall s, (String.length s <= n)%nat -> ValidString s = true -> coerced s = s.
Proof.
  induction n as [ | n IH ]; intros s Hn Hok.
  - destruct s; [ reflexivity | cbn in Hn; lia ].
  - destruct s as [ | c t ]; [ reflexivity | ].
    cbn [String.length] in Hn. cbn [ValidString coerced] in Hok |- *.
    destruct (N_of_ascii c <? RuneSelf).
    + rewrite IH by (assumption || lia). reflexivity.
    + destruct (snd (DecodeRuneInString (String c t))) as [ | [ | [ | [ | [ | k ] ] ] ] ];
        try discriminate;
        destruct t as [ | c1 [ | c2 [ | c3 t3 ] ] ]; try discriminate;
        cbv beta iota in Hok |- *; cbn [String.length] in Hn;
        rewrite IH by (assumption || (cbn [String.length]; lia)); reflexivity.
Qed.

(** Validity of a concatenation. *)
Lemma valid_app n :
  forall a b, (String.length a <= n)%nat ->
    ValidString a = true -> ValidString b = true -> ValidString (a ++ b) = true.
Proof.
  induction n as [ | n IH ]; intros a b Hn Ha Hb.
  - destruct a; [ exact Hb | cbn in Hn; lia ].
  - destruct a as [ | c t ]; [ exact Hb | ].
    cbn [String.length] in Hn.
    destruct (N.lt_ge_cases (N_of_ascii c) 0x80) as [Hlo | Hhi].
    + assert (Hlt : (N_of_ascii c <? RuneSelf) = true) by (apply N.ltb_lt; exact Hlo).
      cbn [ValidString append] in Ha |- *. rewrite Hlt in Ha |- *.
      apply IH; [ lia | assumption | assumption ].
    + assert (Hge : (N_of_ascii c <? RuneSelf) = false) by (apply N.ltb_ge; exact Hhi).
      pose proof (decode_spec c t Hhi) as D.
      cbn [ValidString append] in Ha |- *. rewrite Hge in Ha |- *.
      destruct (DecodeRuneInString (String c t)) as [r size] eqn:ED.
      cbn [fst snd] in D, Ha.
      inversion D as [ Hr Hs | c1 t1 r' Ht Hrange Henc Hpre Hr Hs
                     | c1 c2 t2 r' Ht Hrange Henc Hpre Hr Hs
                     | c1 c2 c3 t3 r' Ht Hrange Henc Hpre Hr Hs ]; subst;
        cbn [append]; rewrite ?Hpre; cbn [snd String.length] in *.
      * destruct t as [ | ? [ | ? [ | ? ? ] ] ]; discriminate.
      * apply IH; [ lia | assumption | assumption ].
      * apply IH; [ lia | assumption | assumption ].
      * apply IH; [ lia | assumption | assumption ].
Qed.

Lemma ValidString_app a b :
  ValidString a = true -> ValidString b = true -> ValidString (a ++ b) = true.
Proof. apply (valid_app (String.length a)). lia. Qed.

Lemma coerced_ValidString s : ValidString s = true -> coerced s = s.
Proof. apply (coerced_valid (String.length s)). lia. Qed.

(** A literal written by [appendString] reads back as the coerced text. *)
Lemma read_appendString s rest :
  read_literal (appendString s ++ rest) = Some (coerced s, rest).
Proof.
  unfold appendString, read_literal. cbn [append expect].
  change (Ascii.eqb dquote dquote) with true. cbv iota.
  rewrite app_assoc. cbn [append].
  apply (read_escape (String.length s)); [ lia | ].
  rewrite app_length. cbn [String.length]. lia.
Qed.
End json_facts.

(** ** JSON: the object of a response reads back *)
Module json_object_facts.
Import utf8 json utf8_facts json_facts.
Local Open Scope N_scope.
Local Arguments N_of_ascii : simpl never.

Lemma read_key_data X :
  read_literal (String dquote ("data" ++ String dquote X)) = Some ("data"%string, X).
Proof. reflexivity. Qed.

Lemma read_key_error X :
  read_literal (String dquote ("error" ++ String dquote X)) = Some ("error"%string, X).
Proof. reflexivity. Qed.


(** The text of [Marshal], field by field. *)
Lemma Marshal_text d e :
  fst (Marshal (mkResponse d e)) =
  match d, e with
  | EmptyString, EmptyString => "{}"
  | String _ _, EmptyString =>
    String "{" (String dquote ("data" ++ String dquote (String ":" (appendString d ++ "}"))))
  | EmptyString, String _ _ =>
    String "{" (String dquote ("error" ++ String dquote (String ":" (appendString e ++ "}"))))
  | String _ _, String _ _ =>
    String "{" (String dquote ("data" ++ String dquote (String ":"
      (appendString d ++ String "," (String dquote ("error" ++ String dquote (String ":"
         (appendString e ++ "}"))))))))
  end%string.
Proof.
  destruct d as [ | cd d ], e as [ | ce e ]; unfold Marshal, encode_field;
    cbn [Data Error String.length Nat.eqb fst snd append Ascii.eqb Bool.eqb];
    rewrite ?app_assoc; cbn [append]; rewrite ?app_assoc; reflexivity.
Qed.

Section Members.
Variables (name : string).
Hypothesis Hkey :
  forall X, read_literal (String dquote (name ++ String dquote X)) = Some (name, X).
Variables (A v rest : string).
Hypothesis HA : skip_ws A = A.

Lemma read_members_last fuel :
  read_literal A = Some (v, String "}" rest) ->
  read_members (S fuel) (String dquote (name ++ String dquote (String ":" A)))
  = Some ([(name, v)], rest).
Proof.
  intros Hv. cbn [read_members]. rewrite Hkey.
  change (skip_ws (String ":" A)) with (String ":" A). cbn [expect].
  change (Ascii.eqb ":" ":") with true. cbv iota.
  rewrite HA, Hv. reflexivity.
Qed.

Lemma read_members_more fuel :
  read_literal A = Some (v, String "," rest) ->
  read_members (S fuel) (String dquote (name ++ String dquote (String ":" A)))
  = match read_members fuel (skip_ws rest) with
    | Some (ms, r) => Some ((name, v) :: ms, r)
    | None => None
    end.
Proof.
  intros Hv. cbn [read_members]. rewrite Hkey.
  change (skip_ws (String ":" A)) with (String ":" A). cbn [expect].
  change (Ascii.eqb ":" ":") with true. cbv iota.
  rewrite HA, Hv. reflexivity.
Qed.
End Members.

Lemma skip_ws_keep c X : is_space c = false -> skip_ws (String c X) = String c X.
Proof. intros H. cbn [skip_ws]. rewrite H. reflexivity. Qed.

Lemma skip_ws_literal s rest : skip_ws (appendString s ++ rest) = (appendString s ++ rest)%string.
Proof. reflexivity. Qed.

(** Reading back what [Marshal] wrote: one member per non-empty field, in the
    order of the fields, each with the coerced text. *)
Lemma read_object_Marshal d e :
  read_object (fst (Marshal (mkResponse d e)))
  = Some (written "data" d ++ written "error" e)%list.
Proof.
  rewrite Marshal_text.
  destruct d as [ | cd d ], e as [ | ce e ]; [ reflexivity | | | ];
    unfold read_object;
    rewrite (skip_ws_keep "{") by reflexivity; cbn [expect];
    change (Ascii.eqb "{" "{") with true; cbv iota;
    rewrite (skip_ws_keep dquote) by reflexivity; cbn [expect];
    change (Ascii.eqb dquote "}") with false; cbv iota;
    cbn [String.length].
  - rewrite (read_members_last "error" read_key_error _ _ EmptyString (skip_ws_literal _ _) _
               (read_appendString _ _)).
    reflexivity.
  - rewrite (read_members_last "data" read_key_data _ _ EmptyString (skip_ws_literal _ _) _
               (read_appendString _ _)).
    reflexivity.
  - rewrite (read_members_more "data" read_key_data _ _ _ (skip_ws_literal _ _) _
               (read_appendString _ _)).
    rewrite (skip_ws_keep dquote) by reflexivity.
    match goal with
    | |- context [ read_members (String.length ?s) _ ] =>
      destruct (String.length s) eqn:En; [ cbn in En; discriminate En | ]
    end.
    rewrite (read_members_last "error" read_key_error _ _ EmptyString (skip_ws_literal _ _) _
               (read_appendString _ _)).
    reflexivity.
Qed.

(** The keys of the text are those of the non-empty fields. *)
Lemma keys_Marshal d e :
  keys (fst (Marshal (mkResponse d e)))
  = Some (map fst (written "data" d ++ written "error" e)).
Proof. unfold keys. rewrite read_object_Marshal. reflexivity. Qed.

(** Decoding what was encoded gives the coerced fields. *)
Lemma Unmarshal_Marshal d e :
  Unmarshal (fst (Marshal (mkResponse d e))) = Some (mkResponse (coerced d) (coerced e)).
Proof.
  unfold Unmarshal. rewrite read_object_Marshal.
  destruct d, e; reflexivity.
Qed.
End json_object_facts.

(** ** Methods: token bytes are quoted and encoded as they are *)
Module method_facts.
Import utf8 json utf8_facts json_facts.
Local Open Scope N_scope.

Ltac each_byte c :=
  destruct c as [[ | ] [ | ] [ | ] [ | ] [ | ] [ | ] [ | ] [ | ]].

Lemma token_ascii c : isTokenRune c = true -> (N_of_ascii c <? RuneSelf) = true.
Proof. intros H. each_byte c; (vm_compute in H; discriminate H) || reflexivity. Qed.

Lemma token_quoted isp c :
  isTokenRune c = true ->
  strconv.appendEscapedRune isp (N_of_ascii c) = String c EmptyString.
Proof. intros H. each_byte c; (vm_compute in H; discriminate H) || reflexivity. Qed.

Lemma allTokens_valid m : allTokens m = true -> ValidString m = true.
Proof.
  induction m as [ | c m IH ]; [ reflexivity | ].
  cbn [allTokens ValidString]. intros H. apply andb_prop in H. destruct H as [Hc Hm].
  rewrite (token_ascii c Hc). exact (IH Hm).
Qed.

Lemma quote_runes_tokens isp m :
  allTokens m = true -> strconv.quote_runes isp m = m.
Proof.
  induction m as [ | c m IH ]; [ reflexivity | ].
  cbn [allTokens strconv.quote_runes]. intros H. apply andb_prop in H. destruct H as [Hc Hm].
  rewrite (token_ascii c Hc), (token_quoted isp c Hc), (IH Hm). reflexivity.
Qed.

(** [%q] of a valid method is the method between double quotes. *)
Lemma Quote_method isp m :
  validMethod m = true ->
  strconv.Quote isp m = String dquote (m ++ String dquote EmptyString).
Proof.
  unfold validMethod. intros H. apply andb_prop in H. destruct H as [_ Hm].
  unfold strconv.Quote. rewrite (quote_runes_tokens isp m Hm). reflexivity.
Qed.

Lemma validMethod_valid m : validMethod m = true -> ValidString m = true.
Proof.
  unfold validMethod. intros H. apply andb_prop in H. destruct H as [_ Hm].
  apply allTokens_valid, Hm.
Qed.

End method_facts.


(** ** What the encoder writes, whatever the bytes *)
Module wire_facts.
Import utf8 json utf8_facts json_facts.
Local Open Scope N_scope.
Local Arguments N_of_ascii : simpl never.

Lemma all_bytes_app p a b :
  all_bytes p (a ++ b) = all_bytes p a && all_bytes p b.
Proof.
  induction a as [ | c a IH ]; [ reflexivity | ].
  cbn [append all_bytes]. rewrite IH. apply andb_assoc.
Qed.

Lemma byte_of_value z : z < 256 -> N_of_ascii (byte_of z) = z.
Proof. intros H. rewrite byte_of_small by exact H. apply N_ascii_embedding, H. Qed.

(** The encoding of a rune that is not ASCII has no ASCII byte. *)
Lemma EncodeRune_high r :
  0x80 <= r -> all_bytes high_byte (EncodeRune r) = true.
Proof.
  intros Hr. unfold EncodeRune, rune1Max, rune2Max.
  destruct (N.leb_spec r 0x7F) as [H1 | H1]; [ lia | ].
  destruct (N.leb_spec r 0x7FF) as [H2 | H2].
  - cbn [all_bytes]. unfold high_byte.
    rewrite shiftr_6, land_3F, lor_t2, lor_tx by dlia.
    rewrite !byte_of_value by dlia.
    destruct (N.leb_spec 0x80 (192 + r / 64)); [ | dlia ].
    destruct (N.leb_spec 0x80 (128 + r mod 64)); [ reflexivity | dlia ].
  - destruct ((MaxRune <? r) || ((surrogateMin <=? r) && (r <=? surrogateMax))) eqn:Hrep.
    + reflexivity.
    + assert (Hmax : r <= 0x10FFFF).
      { apply orb_false_elim in Hrep. destruct Hrep as [Hrep _].
        apply N.ltb_ge in Hrep. exact Hrep. }
      unfold rune3Max.
      destruct (N.leb_spec r 0xFFFF) as [H3 | H3]; cbn [all_bytes]; unfold high_byte.
      * rewrite shiftr_6, shiftr_12, !land_3F, lor_t3, !lor_tx by dlia.
        rewrite !byte_of_value by dlia.
        destruct (N.leb_spec 0x80 (224 + r / 4096)); [ | dlia ].
        destruct (N.leb_spec 0x80 (128 + (r / 64) mod 64)); [ | dlia ].
        destruct (N.leb_spec 0x80 (128 + r mod 64)); [ reflexivity | dlia ].
      * rewrite shiftr_6, shiftr_12, shiftr_18, !land_3F, lor_t4, !lor_tx by dlia.
        rewrite !byte_of_value by dlia.
        destruct (N.leb_spec 0x80 (240 + r / 262144)); [ | dlia ].
        destruct (N.leb_spec 0x80 (128 + (r / 4096) mod 64)); [ | dlia ].
        destruct (N.leb_spec 0x80 (128 + (r / 64) mod 64)); [ | dlia ].
        destruct (N.leb_spec 0x80 (128 + r mod 64)); [ reflexivity | dlia ].
Qed.

Lemma high_is_inert s : all_bytes high_byte s = true -> all_bytes inert_byte s = true.
Proof.
  induction s as [ | c s IH ]; [ reflexivity | ].
  cbn [all_bytes]. intros H. apply andb_prop in H. destruct H as [Hc Hs].
  rewrite (IH Hs), andb_true_r. unfold high_byte in Hc. apply N.leb_le in Hc.
  unfold inert_byte. decide_tests. reflexivity.
Qed.

Lemma escape_byte_inert c :
  N_of_ascii c < 0x80 ->
  all_bytes inert_byte (escape_byte c) = true /\ ValidString (escape_byte c) = true.
Proof.
  intros Hc.
  destruct c as [b0 b1 b2 b3 b4 b5 b6 [ | ]];
    [ exfalso; destruct b0, b1, b2, b3, b4, b5, b6; vm_compute in Hc; discriminate | ].
  destruct b0, b1, b2, b3, b4, b5, b6; split; reflexivity.
Qed.

(** What [escape] writes is inert and valid UTF-8. *)
Lemma escape_inert n :
  forall s, (String.length s <= n)%nat ->
    all_bytes inert_byte (escape s) = true /\ ValidString (escape s) = true.
Proof.
  induction n as [ | n IH ]; intros s Hn.
  - destruct s; [ split; reflexivity | cbn in Hn; lia ].
  - destruct s as [ | c t ]; [ split; reflexivity | ].
    cbn [String.length] in Hn.
    destruct (N.lt_ge_cases (N_of_ascii c) 0x80) as [Hlo | Hhi].
    + assert (Hlt : (N_of_ascii c <? RuneSelf) = true) by (apply N.ltb_lt; exact Hlo).
      cbn [escape]. rewrite Hlt.
      destruct (escape_byte_inert c Hlo) as [Hi Hv].
      destruct (IH t) as [Hit Hvt]; [ lia | ].
      split; [ rewrite all_bytes_app, Hi, Hit; reflexivity | ].
      apply ValidString_app; assumption.
    + assert (Hge : (N_of_ascii c <? RuneSelf) = false) by (apply N.ltb_ge; exact Hhi).
      pose proof (decode_spec c t Hhi) as D.
      cbn [escape]. rewrite Hge.
      destruct (DecodeRuneInString (String c t)) as [r size] eqn:ED.
      cbn [fst snd] in D.
      inversion D as [ Hr Hs | c1 t1 r' Ht Hrange Henc Hpre Hr Hs
                     | c1 c2 t2 r' Ht Hrange Henc Hpre Hr Hs
                     | c1 c2 c3 t3 r' Ht Hrange Henc Hpre Hr Hs ]; subst.
      * change ((RuneError =? RuneError) && (1 =? 1)%nat) with true. cbv iota.
        destruct (IH t) as [Hit Hvt]; [ lia | ].
        split; [ rewrite all_bytes_app, Hit; reflexivity | ].
        apply ValidString_app; [ reflexivity | assumption ].
      * rewrite (not_sep_low r) by lia.
        replace ((r =? RuneError) && (2 =? 1)%nat) with false
          by (rewrite andb_false_r; reflexivity).
        cbv iota. cbn [String.length] in Hn.
        destruct (IH t1) as [Hit Hvt]; [ lia | ].
        assert (Hhigh : all_bytes high_byte (String c (String c1 EmptyString)) = true)
          by (rewrite <- Henc; apply EncodeRune_high; lia).
        split; [ rewrite all_bytes_app, (high_is_inert _ Hhigh), Hit; reflexivity | ].
        apply ValidString_app; [ | assumption ].
        cbn [ValidString]. rewrite Hge, Hpre. reflexivity.
      * replace ((r =? RuneError) && (3 =? 1)%nat) with false
          by (rewrite andb_false_r; reflexivity).
        cbv iota. cbn [String.length] in Hn.
        destruct (IH t2) as [Hit Hvt]; [ lia | ].
        assert (Hhigh : all_bytes high_byte (String c (String c1 (String c2 EmptyString)))
                        = true)
          by (rewrite <- Henc; apply EncodeRune_high; lia).
        destruct (N.eqb_spec r 0x2028) as [-> | N1];
          [ | destruct (N.eqb_spec r 0x2029) as [-> | N2] ]; cbn [orb].
        -- split; [ rewrite all_bytes_app, Hit; reflexivity | ].
           apply ValidString_app; [ reflexivity | assumption ].
        -- split; [ rewrite all_bytes_app, Hit; reflexivity | ].
           apply ValidString_app; [ reflexivity | assumption ].
        -- split; [ rewrite all_bytes_app, (high_is_inert _ Hhigh), Hit; reflexivity | ].
           apply ValidString_app; [ | assumption ].
           cbn [ValidString]. rewrite Hge, Hpre. reflexivity.
      * rewrite (not_sep_high r) by lia.
        replace ((r =? RuneError) && (4 =? 1)%nat) with false
          by (rewrite andb_false_r; reflexivity).
        cbv iota. cbn [String.length] in Hn.
        destruct (IH t3) as [Hit Hvt]; [ lia | ].
        assert (Hhigh :
                  all_bytes high_byte
                    (String c (String c1 (String c2 (String c3 EmptyString)))) = true)
          by (rewrite <- Henc; apply EncodeRune_high; lia).
        split; [ rewrite all_bytes_app, (high_is_inert _ Hhigh), Hit; reflexivity | ].
        apply ValidString_app; [ | assumption ].
        cbn [ValidString]. rewrite Hge, Hpre. reflexivity.
Qed.

Lemma appendString_inert s rest :
  all_bytes inert_byte rest = true -> ValidString rest = true ->
  all_bytes inert_byte (appendString s ++ rest) = true
  /\ ValidString (appendString s ++ rest) = true.
Proof.
  intros Hi Hv. destruct (escape_inert (String.length s) s) as [His Hvs]; [ lia | ].
  unfold appendString. cbn [append]. rewrite app_assoc. cbn [append].
  split.
  - cbn [all_bytes]. rewrite all_bytes_app, His. cbn [all_bytes]. rewrite Hi. reflexivity.
  - change (ValidString (String dquote (escape s ++ String dquote rest)))
      with (ValidString (escape s ++ String dquote rest)).
    apply ValidString_app; [ exact Hvs | exact Hv ].
Qed.

(** The coerced text is valid UTF-8. *)
Lemma coerced_is_valid n :
  forall s, (String.length s <= n)%nat -> ValidString (coerced s) = true.
Proof.
  induction n as [ | n IH ]; intros s Hn.
  - destruct s; [ reflexivity | cbn in Hn; lia ].
  - destruct s as [ | c t ]; [ reflexivity | ].
    cbn [String.length] in Hn.
    destruct (N.lt_ge_cases (N_of_ascii c) 0x80) as [Hlo | Hhi].
    + assert (Hlt : (N_of_ascii c <? RuneSelf) = true) by (apply N.ltb_lt; exact Hlo).
      cbn [coerced]. rewrite Hlt. cbn [ValidString]. rewrite Hlt. apply IH. lia.
    + assert (Hge : (N_of_ascii c <? RuneSelf) = false) by (apply N.ltb_ge; exact Hhi).
      pose proof (decode_spec c t Hhi) as D.
      cbn [coerced]. rewrite Hge.
      destruct (DecodeRuneInString (String c t)) as [r size] eqn:ED.
      cbn [fst snd] in D |- *.
      inversion D as [ Hr Hs | c1 t1 r' Ht Hrange Henc Hpre Hr Hs
                     | c1 c2 t2 r' Ht Hrange Henc Hpre Hr Hs
                     | c1 c2 c3 t3 r' Ht Hrange Henc Hpre Hr Hs ]; subst;
        cbn [String.length] in Hn.
      * replace (match t with
                 | EmptyString => _
                 | String _ _ => _
                 end) with (EncodeRune RuneError ++ coerced t)%string
          by (destruct t as [ | ? [ | ? [ | ? ? ] ] ]; reflexivity).
        apply ValidString_app; [ reflexivity | apply IH; lia ].
      * cbn [ValidString]. rewrite Hge, Hpre. cbn [snd]. apply IH. lia.
      * cbn [ValidString]. rewrite Hge, Hpre. cbn [snd]. apply IH. lia.
      * cbn [ValidString]. rewrite Hge, Hpre. cbn [snd]. apply IH. lia.
Qed.

(** The coerced text of a text that is not empty is not empty. *)
Lemma coerced_not_empty s : s <> EmptyString -> coerced s <> EmptyString.
Proof.
  destruct s as [ | c t ]; [ contradiction | ]. intros _.
  cbn [coerced]. destruct (N_of_ascii c <? RuneSelf); [ discriminate | ].
  destruct (snd (DecodeRuneInString (String c t))) as [ | [ | [ | [ | [ | k ] ] ] ] ];
    destruct t as [ | c1 [ | c2 [ | c3 t3 ] ] ]; discriminate.
Qed.

End wire_facts.


(** ** What [%q] writes, whatever the bytes *)
Module quote_facts.
Import utf8 json utf8_facts json_facts wire_facts.
Local Open Scope N_scope.
Local Arguments N_of_ascii : simpl never.

Lemma low_is_valid s : all_bytes low_byte s = true -> ValidString s = true.
Proof.
  induction s as [ | c s IH ]; [ reflexivity | ].
  cbn [all_bytes ValidString]. intros H. apply andb_prop in H. destruct H as [Hc Hs].
  unfold low_byte in Hc. unfold RuneSelf. rewrite Hc. exact (IH Hs).
Qed.

Lemma hexdigit_low i : low_byte (strconv.hexdigit i) = true.
Proof.
  unfold strconv.hexdigit. generalize (N.to_nat i). intros n.
  do 16 (destruct n as [ | n ]; [ reflexivity | ]). reflexivity.
Qed.

Lemma hexrun_low r shifts : all_bytes low_byte (strconv.hexrun r shifts) = true.
Proof.
  unfold strconv.hexrun. induction shifts as [ | s shifts IH ]; [ reflexivity | ].
  cbn [map string_of_list_ascii all_bytes]. rewrite hexdigit_low, IH. reflexivity.
Qed.

Lemma escape_of_hex (tag : ascii) r shifts :
  low_byte tag = true ->
  ValidString (String bslash (String tag EmptyString ++ strconv.hexrun r shifts)) = true.
Proof.
  intros Htag. apply low_is_valid. cbn [append all_bytes].
  rewrite Htag, hexrun_low. reflexivity.
Qed.

Lemma EncodeRune_ascii b : b < 0x80 -> ValidString (EncodeRune b) = true.
Proof.
  intros Hb. unfold EncodeRune, rune1Max.
  destruct (N.leb_spec b 0x7F); [ | lia ].
  apply low_is_valid. cbn [all_bytes]. unfold low_byte.
  rewrite byte_of_value by lia. apply N.ltb_lt in Hb. rewrite Hb. reflexivity.
Qed.

(** What [appendEscapedRune] writes for a rune is valid UTF-8 when the
    encoding of the rune is, whatever the Unicode tables say. *)
Lemma escaped_rune_valid isp r :
  ValidString (EncodeRune r) = true ->
  ValidString (strconv.appendEscapedRune isp r) = true.
Proof.
  intros Henc. unfold strconv.appendEscapedRune.
  destruct (N.eqb_spec r 0x22) as [-> | _]; [ reflexivity | ].
  destruct (N.eqb_spec r 0x5C) as [-> | _]; [ reflexivity | ].
  cbn [orb].
  destruct (strconv.IsPrint isp r); [ exact Henc | ].
  repeat match goal with
         | |- context [ if ?a =? ?b then _ else _ ] => destruct (a =? b); [ reflexivity | ]
         end.
  destruct ((r <? 0x20) || (r =? 0x7F)); [ apply escape_of_hex; reflexivity | ].
  destruct (negb (strconv.ValidRune r)); [ reflexivity | ].
  destruct (r <? 0x10000); apply escape_of_hex; reflexivity.
Qed.

(** [quote_runes] writes valid UTF-8. *)
Lemma quote_runes_valid isp n :
  forall s, (String.length s <= n)%nat -> ValidString (strconv.quote_runes isp s) = true.
Proof.
  induction n as [ | n IH ]; intros s Hn.
  - destruct s; [ reflexivity | cbn in Hn; lia ].
  - destruct s as [ | c t ]; [ reflexivity | ].
    cbn [String.length] in Hn.
    destruct (N.lt_ge_cases (N_of_ascii c) 0x80) as [Hlo | Hhi].
    + assert (Hlt : (N_of_ascii c <? RuneSelf) = true) by (apply N.ltb_lt; exact Hlo).
      cbn [strconv.quote_runes]. rewrite Hlt.
      apply ValidString_app; [ | apply IH; lia ].
      apply escaped_rune_valid, EncodeRune_ascii, Hlo.
    + assert (Hge : (N_of_ascii c <? RuneSelf) = false) by (apply N.ltb_ge; exact Hhi).
      pose proof (decode_spec c t Hhi) as D.
      cbn [strconv.quote_runes]. rewrite Hge.
      destruct (DecodeRuneInString (String c t)) as [r size] eqn:ED.
      cbn [fst snd] in D.
      inversion D as [ Hr Hs | c1 t1 r' Ht Hrange Henc Hpre Hr Hs
                     | c1 c2 t2 r' Ht Hrange Henc Hpre Hr Hs
                     | c1 c2 c3 t3 r' Ht Hrange Henc Hpre Hr Hs ]; subst;
        cbn [String.length] in Hn.
      * change ((1 =? 1)%nat && (RuneError =? RuneError)) with true. cbv iota.
        apply ValidString_app; [ | apply IH; lia ].
        apply (escape_of_hex "x"). reflexivity.
      * change ((2 =? 1)%nat && (r =? RuneError)) with false. cbv iota.
        apply ValidString_app; [ | apply IH; lia ].
        apply escaped_rune_valid. rewrite Henc.
        cbn [ValidString]. rewrite Hge, Hpre. reflexivity.
      * change ((3 =? 1)%nat && (r =? RuneError)) with false. cbv iota.
        apply ValidString_app; [ | apply IH; lia ].
        apply escaped_rune_valid. rewrite Henc.
        cbn [ValidString]. rewrite Hge, Hpre. reflexivity.
      * change ((4 =? 1)%nat && (r =? RuneError)) with false. cbv iota.
        apply ValidString_app; [ | apply IH; lia ].
        apply escaped_rune_valid. rewrite Henc.
        cbn [ValidString]. rewrite Hge, Hpre. reflexivity.
Qed.

Lemma Quote_valid isp s :
  ValidString (strconv.Quote isp s) = true.
Proof.
  unfold strconv.Quote.
  change (ValidString (String dquote (strconv.quote_runes isp s ++ String dquote EmptyString)))
    with (ValidString (strconv.quote_runes isp s ++ String dquote EmptyString)).
  apply ValidString_app; [ | reflexivity ].
  apply (quote_runes_valid isp (String.length s)). lia.
Qed.

(** The text of the error is valid UTF-8 for every method. *)
Lemma unsupported_is_valid isp m : ValidString (unsupported isp m) = true.
Proof.
  unfold unsupported.
  apply ValidString_app; [ reflexivity | ].
  apply ValidString_app; [ apply Quote_valid | reflexivity ].
Qed.

End quote_facts.


(** ** The pipeline *)

Lemma string_app_nil_r (s : string) : (s ++ EmptyString)%string = s.
Proof. induction s as [ | c s IH ]; cbn; [ reflexivity | rewrite IH; reflexivity ]. Qed.

Lemma Marshal_no_error (v : response) : snd (json.Marshal v) = None.
Proof.
  unfold json.Marshal.
  destruct (json.encode_field "error" (Error v)
              (json.encode_field "data" (Data v) (EmptyString, "{"%char))).
  reflexivity.
Qed.

Lemma Marshal_pair (v : response) : json.Marshal v = (fst (json.Marshal v), None).
Proof. rewrite <- (Marshal_no_error v). destruct (json.Marshal v); reflexivity. Qed.

(** Unfold the operations of the monad and of the world. *)
Ltac run_ops :=
  unfold bind, defer, lift, recover, ret, panic, get, modify, fmt_Println,
    w_WriteHeader, w_Write, log_Printf, time_Since, time_Now in *.

(** Unfold the program, by name. *)
Ltac open_recovery := unfold recovery in *.
Ltac open_accessLog := unfold accessLog, elapsed_at in *.
Ltac open_hello := unfold helloHandler, helloHandler_with in *.
Ltac open_frame :=
  unfold helloHandler_frame, hello_switch, hello_deferred, greeting, locals, set_err,
    set_status, set_data in *.
Ltac open_mux := unfold ServeHTTP, the_mux, HandleFunc, NewServeMux in *.
Ltac open_elapsed := unfold elapsed_at in *.
Ltac open_unsupported := unfold unsupported in *.
Ltac calc := cbn -[json.Marshal Sprintf].
Ltac calc_text := cbn -[append Sprintf].

Section Pipeline.

Variable clock : nat -> Time.
Variable Format_RFC1123Z : Time -> string.
Variable unicode_IsPrint : N -> bool.
Variable log_fault : LogCall -> option string.
Variable unmatched : Handler.

Local Abbreviation Sprintf := (Sprintf unicode_IsPrint).
Local Abbreviation recovery := (recovery unicode_IsPrint log_fault).
Local Abbreviation accessLog := (accessLog clock log_fault).
Local Abbreviation helloHandler := (helloHandler clock Format_RFC1123Z unicode_IsPrint).
Local Abbreviation ServeHTTP := (ServeHTTP unmatched).
Local Abbreviation main_handler :=
  (main_handler clock Format_RFC1123Z unicode_IsPrint log_fault unmatched).
Local Abbreviation elapsed_at := (elapsed_at clock).
Local Abbreviation greeting := (greeting clock Format_RFC1123Z).
Local Abbreviation unsupported := (unsupported unicode_IsPrint).
Local Abbreviation the_mux := (the_mux clock Format_RFC1123Z unicode_IsPrint).

Lemma Sprintf_v (v : string) : Sprintf "%v" [v] = v.
Proof. cbn. apply string_app_nil_r. Qed.

Lemma Sprintf_hello (t : string) :
  Sprintf helloMsgTmpl [t] = ("Hello, from service. Today is " ++ t)%string.
Proof. cbn. rewrite string_app_nil_r. reflexivity. Qed.

(** What [recovery] does, by the way the wrapped handler ends. *)
Lemma recovery_returns next r w w1 :
  next r (printed "panic middleware" w) = (Ok tt, w1) ->
  recovery next r w = (Ok tt, printed "panic middleware defer" w1).
Proof.
  intros Hnext. open_recovery. unfold printed in *. run_ops.
  cbn. rewrite Hnext. reflexivity.
Qed.


Lemma recovery_panics next r w v w1 :
  next r (printed "panic middleware" w) = (Panicked v, w1) ->
  recovery next r w =
  match log_fault (panic_line r) with
  | None => (Ok tt, logging (panic_line r) (intercepted v w1))
  | Some v' => (Panicked v', intercepted v w1)
  end.
Proof.
  intros Hnext. open_recovery. unfold printed, panic_line, logging, intercepted in *.
  run_ops. calc. rewrite Hnext. calc. rewrite Sprintf_v.
  destruct (log_fault _); cbn -[json.Marshal]; rewrite <- List.app_assoc; reflexivity.
Qed.

Lemma accessLog_returns next r w w2 :
  next r (timing w) = (Ok tt, w2) ->
  accessLog next r w =
  match log_fault (access_line r (elapsed_at w w2)) with
  | None => (Ok tt, logging (access_line r (elapsed_at w w2)) (clock_read w2))
  | Some v => (Panicked v, clock_read w2)
  end.
Proof.
  intros Hnext.
  open_accessLog. unfold timing, access_line, logging, clock_read in *.
  run_ops. cbn. rewrite Hnext. cbn. destruct (log_fault _); reflexivity.
Qed.

Lemma accessLog_panics next r w v w2 :
  next r (timing w) = (Panicked v, w2) ->
  accessLog next r w = (Panicked v, w2).
Proof.
  intros Hnext. open_accessLog. unfold timing in *.
  run_ops. cbn. rewrite Hnext. reflexivity.
Qed.


(** *** helloHandler *)

Lemma Sprintf_unsupported (m : string) :
  Sprintf "метод %q не поддерживается" [m] = unsupported m.
Proof. reflexivity. Qed.

Section AnyMarshal.
Variable marshal : response -> string * option string.

Local Abbreviation frame :=
  (helloHandler_frame clock Format_RFC1123Z unicode_IsPrint marshal).

Lemma hello_frame_get r w :
  Method r = MethodGet ->
  frame r (zero_locals, w) =
  match marshal (mkResponse (greeting w) EmptyString) with
  | (d, None) =>
    (Ok tt, (mkLocals None 0%Z d, answered [WriteHeader StatusOK; Write d] (clock_read w)))
  | (_, Some e) =>
    match marshal (mkResponse EmptyString e) with
    | (d2, e2) =>
      (Ok tt, (mkLocals e2 StatusInternalServerError d2, answered [Write d2] (clock_read w)))
    end
  end.
Proof.
  intros Hm. open_frame. unfold zero_locals, answered, clock_read.
  rewrite Hm. run_ops.
  calc_text. rewrite Sprintf_hello.
  destruct (marshal _) as [d [e | ]]; cbn -[append].
  - destruct (marshal _) as [d2 [e2 | ]]; cbn -[append]; reflexivity.
  - rewrite <- List.app_assoc. reflexivity.
Qed.

Lemma hello_frame_other r w :
  Method r <> MethodGet ->
  frame r (zero_locals, w) =
  match marshal (mkResponse EmptyString (unsupported (Method r))) with
  | (d, e) =>
    (Ok tt,
     (mkLocals e (match e with
                  | Some _ => StatusInternalServerError
                  | None => StatusNotImplemented
                  end) d,
      answered [Write d] w))
  end.
Proof.
  intros Hm. open_frame. unfold zero_locals, answered.
  apply String.eqb_neq in Hm. rewrite Hm. run_ops.
  calc_text. rewrite Sprintf_unsupported.
  destruct (marshal _) as [d [e | ]]; reflexivity.
Qed.

End AnyMarshal.

Lemma hello_get r w :
  Method r = MethodGet ->
  helloHandler r w =
  (Ok tt, answered [WriteHeader StatusOK;
                    Write (fst (json.Marshal (mkResponse (greeting w) EmptyString)))]
            (clock_read w)).
Proof.
  intros Hm. open_hello.
  pose proof (hello_frame_get json.Marshal r w Hm) as E. unfold zero_locals in E.
  rewrite E, Marshal_pair. reflexivity.
Qed.

Lemma hello_other r w :
  Method r <> MethodGet ->
  helloHandler r w =
  (Ok tt, answered [Write (fst (json.Marshal (mkResponse EmptyString (unsupported (Method r)))))]
            w).
Proof.
  intros Hm. open_hello.
  pose proof (hello_frame_other json.Marshal r w Hm) as E. unfold zero_locals in E.
  rewrite E, Marshal_pair. reflexivity.
Qed.

(** *** Route dispatch *)

Lemma mux_hello r : URL_Path r = "/hello"%string -> ServeHTTP the_mux r = helloHandler r.
Proof.
  intros Hp. open_mux.
  cbn [routes app find fst]. rewrite Hp. reflexivity.
Qed.

(** *** The two middlewares, one around the other as [main] nests them *)

Lemma chain_returns next r w w2 :
  next r (timing (printed "panic middleware" w)) = (Ok tt, w2) ->
  recovery (accessLog next) r w =
  match log_fault (access_line r (elapsed_at w w2)) with
  | None =>
    (Ok tt, printed "panic middleware defer"
              (logging (access_line r (elapsed_at w w2)) (clock_read w2)))
  | Some v =>
    match log_fault (panic_line r) with
    | None => (Ok tt, logging (panic_line r) (intercepted v (clock_read w2)))
    | Some v' => (Panicked v', intercepted v (clock_read w2))
    end
  end.
Proof.
  intros Hnext.
  pose proof (accessLog_returns next r (printed "panic middleware" w) w2 Hnext) as Ha.
  change (elapsed_at (printed "panic middleware" w) w2)
    with (elapsed_at w w2) in Ha.
  destruct (log_fault (access_line r (elapsed_at w w2))) as [v | ].
  - apply recovery_panics, Ha.
  - apply recovery_returns, Ha.
Qed.

Lemma chain_panics next r w v w2 :
  next r (timing (printed "panic middleware" w)) = (Panicked v, w2) ->
  recovery (accessLog next) r w =
  match log_fault (panic_line r) with
  | None => (Ok tt, logging (panic_line r) (intercepted v w2))
  | Some v' => (Panicked v', intercepted v w2)
  end.
Proof.
  intros Hnext. apply recovery_panics.
  apply accessLog_panics, Hnext.
Qed.

Lemma main_handler_unfold :
  main_handler = recovery (accessLog (ServeHTTP the_mux)).
Proof. reflexivity. Qed.

(** What route dispatch does with a request to /hello, whatever the method. *)
Lemma dispatch_hello r w :
  URL_Path r = "/hello"%string ->
  exists w2,
    ServeHTTP the_mux r w = (Ok tt, w2)
    /\ stdout w2 = (stdout w ++ ["hello handler"])%list
    /\ logged w2 = logged w
    /\ (ticks w <= ticks w2)%nat.
Proof.
  intros Hp. rewrite (mux_hello r Hp).
  destruct (String.eqb_spec (Method r) MethodGet) as [Hm | Hm].
  - rewrite (hello_get r w Hm). eexists. split; [ reflexivity | ].
    cbn. repeat split. lia.
  - rewrite (hello_other r w Hm). eexists. split; [ reflexivity | ].
    cbn. repeat split. lia.
Qed.

Lemma count_access_snoc_access l r e :
  count_access (l ++ [access_line r e])%list = S (count_access l).
Proof.
  unfold count_access. rewrite filter_app, length_app. cbn. lia.
Qed.

Lemma count_access_snoc_panic l r :
  count_access (l ++ [panic_line r])%list = count_access l.
Proof.
  unfold count_access. rewrite filter_app, length_app. cbn. lia.
Qed.

(** C1, as amended.  The composition root builds one handler chain in which
    the recovery middleware is the outermost wrapper, the access-log
    middleware is nested inside it and route dispatch is innermost: the
    handler bound to the listener is recovery(accessLog(route dispatch)).  A
    request to /hello shows the nesting in the order of the lines printed:
    recovery enters first and its deferred call leaves last. *)
Theorem main_nests_log_inside_recovery :
  main_handler = recovery (accessLog (ServeHTTP the_mux))
  /\ forall r w,
       URL_Path r = "/hello"%string ->
       stdout (snd (main_handler r w))
       = (stdout w ++ ["panic middleware"; "access_log middleware"; "hello handler";
                       "panic middleware defer"])%list.
Proof.
  split; [ reflexivity | ]. intros r w Hp. rewrite main_handler_unfold.
  destruct (dispatch_hello r (timing (printed "panic middleware" w)) Hp)
    as [w2 [Hrun [Hout _]]].
  rewrite (chain_returns _ r w w2 Hrun).
  cbn in Hout. rewrite <- !List.app_assoc in Hout. cbn [app] in Hout.
  destruct (log_fault (access_line r (elapsed_at w w2))) as [v | ];
    [ destruct (log_fault (panic_line r)) | ];
    cbn; rewrite Hout, <- List.app_assoc; reflexivity.
Qed.

(** C2, as amended.  With a clock that does not run backwards and a log
    output that does not fault: when the handler under the two middlewares
    returns, with a success or an error envelope, exactly one access-log
    line (method, origin, path, elapsed time) is added to the log, after
    everything the handler logged, and the elapsed time is not negative;
    when that handler faults, the fault passes through the access-log
    middleware, which adds no line, and the recovery middleware around it
    logs its panic line.  Route dispatch returns on every request to /hello,
    so each of them gets its access-log line. *)
Theorem access_line_follows_downstream next r w :
  monotone clock ->
  (forall c, log_fault c = None) ->
  (forall w2,
      next r (timing (printed "panic middleware" w)) = (Ok tt, w2) ->
      recovery (accessLog next) r w
      = (Ok tt, printed "panic middleware defer"
                  (logging (access_line r (elapsed_at w w2)) (clock_read w2)))
      /\ logged (snd (recovery (accessLog next) r w))
         = (logged w2 ++ [access_line r (elapsed_at w w2)])%list
      /\ count_access (logged (snd (recovery (accessLog next) r w)))
         = S (count_access (logged w2))
      /\ ((ticks w <= ticks w2)%nat -> (0 <= elapsed_at w w2)%Z))
  /\ (forall v w2,
      next r (timing (printed "panic middleware" w)) = (Panicked v, w2) ->
      recovery (accessLog next) r w = (Ok tt, logging (panic_line r) (intercepted v w2))
      /\ count_access (logged (snd (recovery (accessLog next) r w)))
         = count_access (logged w2))
  /\ (URL_Path r = "/hello"%string ->
      count_access (logged (snd (main_handler r w))) = S (count_access (logged w))).
Proof.
  intros Hclock Hlog. split; [ | split ].
  - intros w2 Hrun. rewrite (chain_returns next r w w2 Hrun), Hlog. cbn [snd].
    repeat split.
    + cbn. apply count_access_snoc_access.
    + intros Hticks. open_elapsed.
      specialize (Hclock (ticks w) (ticks w2) Hticks). lia.
  - intros v w2 Hrun. rewrite (chain_panics next r w v w2 Hrun), Hlog. cbn [snd].
    split; [ reflexivity | ]. cbn. apply count_access_snoc_panic.
  - intros Hp. rewrite main_handler_unfold.
    destruct (dispatch_hello r (timing (printed "panic middleware" w)) Hp)
      as [w2 [Hrun [_ [Hlogged _]]]].
    rewrite (chain_returns _ r w w2 Hrun), Hlog.
    unfold printed, logging, clock_read. cbn [snd logged].
    rewrite count_access_snoc_access, Hlogged. reflexivity.
Qed.


(** C5.  If the handler wrapped by the recovery middleware panics, the panic
    does not leave the middleware: it calls WriteHeader(500), then writes
    the serialized envelope whose error field is the description of the
    fault, then logs the panic line with method, origin and path.  On a
    writer not used before, the status sent is 500. *)
Theorem recovery_intercepts next r w v w1 :
  next r (printed "panic middleware" w) = (Panicked v, w1) ->
  log_fault (panic_line r) = None ->
  recovery next r w = (Ok tt, logging (panic_line r) (intercepted v w1))
  /\ resp (snd (recovery next r w))
     = (resp w1 ++ [WriteHeader StatusInternalServerError;
                    Write (fst (json.Marshal (mkResponse EmptyString v)))])%list
  /\ logged (snd (recovery next r w)) = (logged w1 ++ [panic_line r])%list
  /\ operands (panic_line r)
     = [AString (Method r); AString (RemoteAddr r); AString (URL_Path r)]
  /\ json.Unmarshal (fst (json.Marshal (mkResponse EmptyString v)))
     = Some (mkResponse EmptyString (json.coerced v))
  /\ (v <> EmptyString ->
      json.keys (fst (json.Marshal (mkResponse EmptyString v))) = Some ["error"%string])
  /\ (resp w1 = [] ->
      status_sent (resp (snd (recovery next r w))) = StatusInternalServerError).
Proof.
  intros Hrun Hlog.
  rewrite (recovery_panics next r w v w1 Hrun), Hlog. cbn [snd].
  repeat split.
  - apply json_object_facts.Unmarshal_Marshal.
  - intros Hv. rewrite json_object_facts.keys_Marshal.
    destruct v; [ contradiction | reflexivity ].
  - intros Hfresh. cbn -[json.Marshal]. rewrite Hfresh. reflexivity.
Qed.

(** C8, as amended.  For every handler H wrapped by the recovery middleware
    and every request, with a log output that does not fault, one of two
    paths is taken and never both: when H returns, the middleware writes
    nothing and the response is what H wrote; when H panics, the interception
    path writes status 500 and the error envelope once, after whatever H had
    written before the fault.  The response comes from one writer when H
    returns and when H panics before it has written. *)
Theorem recovery_paths H r w :
  (forall c, log_fault c = None) ->
  (forall w1,
      H r (printed "panic middleware" w) = (Ok tt, w1) ->
      recovery H r w = (Ok tt, printed "panic middleware defer" w1)
      /\ resp (snd (recovery H r w)) = resp w1
      /\ single_writer unicode_IsPrint log_fault H r w)
  /\ (forall v w1,
      H r (printed "panic middleware" w) = (Panicked v, w1) ->
      recovery H r w = (Ok tt, logging (panic_line r) (intercepted v w1))
      /\ resp (snd (recovery H r w))
         = (resp w1 ++ [WriteHeader StatusInternalServerError;
                        Write (fst (json.Marshal (mkResponse EmptyString v)))])%list
      /\ (resp w1 = resp w -> single_writer unicode_IsPrint log_fault H r w)).
Proof.
  intros Hlog. split.
  - intros w1 Hrun. pose proof (recovery_returns H r w w1 Hrun) as E.
    rewrite E. repeat split.
    unfold single_writer. cbn zeta. rewrite E, Hrun. right. reflexivity.
  - intros v w1 Hrun. pose proof (recovery_panics H r w v w1 Hrun) as E.
    rewrite Hlog in E. rewrite E. repeat split.
    intros Hsame. unfold single_writer. cbn zeta. rewrite Hrun. left. exact Hsame.
Qed.

(** C4.  On the path of an unsupported method, and on the path where the
    serialization of the success envelope reports an error, the status
    variable of the endpoint handler ends as 501 or 500, but the only call the
    handler makes on the writer is the Write of the body: no WriteHeader
    applies the variable, so on a writer not used before the status sent is
    200.  [marshal] is any serializer, so that the second path exists. *)
Theorem error_paths_send_200 marshal r w res l w' :
  helloHandler_frame clock Format_RFC1123Z unicode_IsPrint marshal r (zero_locals, w)
  = (res, (l, w')) ->
  Method r <> MethodGet
  \/ snd (marshal (mkResponse (greeting w) EmptyString)) <> None ->
  (status l = StatusNotImplemented \/ status l = StatusInternalServerError)
  /\ resp w' = (resp w ++ [Write (data l)])%list
  /\ (resp w = [] -> status_sent (resp w') = StatusOK).
Proof.
  intros Hrun Hpath.
  destruct (String.eqb_spec (Method r) MethodGet) as [Hm | Hm].
  - rewrite (hello_frame_get marshal r w Hm) in Hrun.
    destruct Hpath as [Hpath | Hpath]; [ contradiction | ].
    destruct (marshal (mkResponse (greeting w) EmptyString)) as [d [e | ]];
      [ | cbn in Hpath; contradiction ].
    destruct (marshal (mkResponse EmptyString e)) as [d2 e2].
    inversion Hrun; subst. cbn. repeat split; auto.
    intros Hfresh. rewrite Hfresh. reflexivity.
  - rewrite (hello_frame_other marshal r w Hm) in Hrun.
    destruct (marshal (mkResponse EmptyString (unsupported (Method r)))) as [d e].
    inversion Hrun; subst. cbn. repeat split.
    + destruct e; auto.
    + intros Hfresh. rewrite Hfresh. reflexivity.
Qed.


(** C6.  For every request to /hello with method GET, handled by the chain
    of [main] with a log output that does not fault: the handler calls
    WriteHeader(200) and writes the serialized envelope whose data field is
    the text Hello, from service. Today is t, with t the time read from the
    clock in the RFC 1123 layout with numeric zone; the text is not empty, the
    body has the key data and no other, and it decodes to the envelope with
    that data and an empty error (to the very text when t is valid UTF-8).
    On a writer not used before, the status sent is 200. *)
Theorem get_hello_sends_data r w :
  Method r = MethodGet ->
  URL_Path r = "/hello"%string ->
  (forall c, log_fault c = None) ->
  let t := Format_RFC1123Z (clock (S (ticks w))) in
  let msg := ("Hello, from service. Today is " ++ t)%string in
  let body := fst (json.Marshal (mkResponse msg EmptyString)) in
  fst (main_handler r w) = Ok tt
  /\ resp (snd (main_handler r w)) = (resp w ++ [WriteHeader StatusOK; Write body])%list
  /\ (resp w = [] ->
      status_sent (resp (snd (main_handler r w))) = StatusOK
      /\ body_sent (resp (snd (main_handler r w))) = body)
  /\ msg <> EmptyString
  /\ json.keys body = Some ["data"%string]
  /\ json.Unmarshal body = Some (mkResponse (json.coerced msg) EmptyString)
  /\ (utf8.ValidString t = true ->
      json.Unmarshal body = Some (mkResponse msg EmptyString)).
Proof.
  intros Hm Hp Hlog t msg body. rewrite main_handler_unfold.
  assert (Hrun : ServeHTTP the_mux r (timing (printed "panic middleware" w))
                 = (Ok tt, answered [WriteHeader StatusOK; Write body]
                             (clock_read (timing (printed "panic middleware" w))))).
  { rewrite (mux_hello r Hp), (hello_get r _ Hm). reflexivity. }
  rewrite (chain_returns _ r w _ Hrun), Hlog.
  assert (Hkeys : json.keys body = Some ["data"%string]).
  { unfold body. rewrite json_object_facts.keys_Marshal. reflexivity. }
  assert (Hback : json.Unmarshal body = Some (mkResponse (json.coerced msg) EmptyString)).
  { unfold body. apply json_object_facts.Unmarshal_Marshal. }
  cbn -[json.Marshal].
  split; [ reflexivity | ]. split; [ reflexivity | ].
  split.
  { intros Hfresh. rewrite Hfresh. split; [ reflexivity | ].
    cbn -[json.Marshal]. apply string_app_nil_r. }
  split; [ discriminate | ]. split; [ exact Hkeys | ]. split; [ exact Hback | ].
  intros Ht. rewrite Hback, (json_facts.coerced_ValidString msg); [ reflexivity | ].
  apply json_facts.ValidString_app; [ reflexivity | exact Ht ].
Qed.

Lemma unsupported_method m :
  validMethod m = true ->
  unsupported m
  = ("метод " ++ String dquote (m ++ String dquote " не поддерживается"))%string.
Proof.
  intros Hm. open_unsupported.
  rewrite (method_facts.Quote_method unicode_IsPrint m Hm).
  cbn [append]. rewrite json_facts.app_assoc. reflexivity.
Qed.

Lemma unsupported_valid m :
  validMethod m = true -> utf8.ValidString (unsupported m) = true.
Proof.
  intros Hm. rewrite (unsupported_method m Hm).
  change ("метод " ++ String dquote (m ++ String dquote " не поддерживается"))%string
    with (("метод " ++ String dquote EmptyString)
          ++ (m ++ String dquote " не поддерживается"))%string.
  apply json_facts.ValidString_app; [ reflexivity | ].
  apply json_facts.ValidString_app; [ | reflexivity ].
  apply method_facts.validMethod_valid, Hm.
Qed.

(** C3, as amended.  For every request to /hello whose method is not GET,
    handled by the chain of [main] with a log output that does not fault:
    the only call on the writer is the Write of the serialized envelope whose
    error field is the text made of метод, the method as [%q] prints it and
    не поддерживается; for a method the server admits, a token, that is the
    method itself between double quotes.  The error field is not empty, the
    envelope has the key error and no other, and it decodes to that error and
    an empty data.  The answer has status 200, and its body is this envelope
    for every method but HEAD, for which the server sends no body. *)
Theorem other_method_sends_error r w :
  Method r <> MethodGet ->
  URL_Path r = "/hello"%string ->
  (forall c, log_fault c = None) ->
  let msg := unsupported (Method r) in
  let body := fst (json.Marshal (mkResponse EmptyString msg)) in
  fst (main_handler r w) = Ok tt
  /\ resp (snd (main_handler r w)) = (resp w ++ [Write body])%list
  /\ (resp w = [] -> body_sent (resp (snd (main_handler r w))) = body)
  /\ (resp w = [] ->
      served main_handler r w
      = Answered StatusOK
          (if String.eqb (Method r) MethodHead then EmptyString else body))
  /\ (validMethod (Method r) = true ->
      msg = ("метод " ++ String dquote (Method r ++ String dquote " не поддерживается"))%string)
  /\ msg <> EmptyString
  /\ json.keys body = Some ["error"%string]
  /\ json.Unmarshal body = Some (mkResponse EmptyString msg).
Proof.
  intros Hm Hp Hlog msg body.
  assert (Hrun : ServeHTTP the_mux r (timing (printed "panic middleware" w))
                 = (Ok tt, answered [Write body] (timing (printed "panic middleware" w)))).
  { rewrite (mux_hello r Hp), (hello_other r _ Hm). reflexivity. }
  assert (Hchain : main_handler r w
                   = (Ok tt,
                      printed "panic middleware defer"
                        (logging
                           (access_line r
                              (elapsed_at w
                                 (answered [Write body]
                                    (timing (printed "panic middleware" w)))))
                           (clock_read
                              (answered [Write body]
                                 (timing (printed "panic middleware" w))))))).
  { rewrite main_handler_unfold, (chain_returns _ r w _ Hrun), Hlog. reflexivity. }
  assert (Hne : msg <> EmptyString) by (unfold msg; open_unsupported; discriminate).
  split; [ rewrite Hchain; reflexivity | ].
  split; [ rewrite Hchain; reflexivity | ].
  split.
  { intros Hfresh. rewrite Hchain. cbn -[json.Marshal]. rewrite Hfresh.
    cbn -[json.Marshal]. apply string_app_nil_r. }
  split.
  { intros Hfresh. unfold served. rewrite Hchain.
    cbn [snd printed logging clock_read answered timing resp]. rewrite Hfresh.
    cbn [app]. unfold sent_body. cbn [status_sent body_sent].
    change (bodyAllowedForStatus StatusOK) with true. cbn [negb].
    rewrite orb_false_r, string_app_nil_r. reflexivity. }
  split; [ intros Hvalid; apply unsupported_method, Hvalid | ].
  split; [ exact Hne | ].
  split.
  { unfold body. rewrite json_object_facts.keys_Marshal.
    destruct msg; [ contradiction | reflexivity ]. }
  unfold body. rewrite json_object_facts.Unmarshal_Marshal.
  rewrite (json_facts.coerced_ValidString msg); [ reflexivity | ].
  apply quote_facts.unsupported_is_valid.
Qed.

End Pipeline.

(** ** The envelope on the wire *)

(** C9, as amended.  For every envelope holding a single non-empty field
    whose text is valid UTF-8, serializing it to JSON and parsing the JSON
    back gives an envelope with the same two field values. *)
Theorem envelope_round_trip (x : string) :
  x <> EmptyString ->
  utf8.ValidString x = true ->
  json.Unmarshal (fst (json.Marshal (mkResponse x EmptyString)))
  = Some (mkResponse x EmptyString)
  /\ json.Unmarshal (fst (json.Marshal (mkResponse EmptyString x)))
     = Some (mkResponse EmptyString x).
Proof.
  intros _ Hx. rewrite !json_object_facts.Unmarshal_Marshal.
  rewrite (json_facts.coerced_ValidString x Hx). split; reflexivity.
Qed.

(** C10.  Serialization writes no key for an empty field: the keys of the
    body are those of the non-empty fields, in the order data, error; so a
    success body has no error key, an error body has no data key, and the
    envelope with both fields empty is serialized as the two braces. *)
Theorem omitempty_drops_empty_fields (d e : string) :
  json.keys (fst (json.Marshal (mkResponse d e)))
  = Some (map fst (json.written "data" d ++ json.written "error" e)%list)
  /\ (d <> EmptyString ->
      json.keys (fst (json.Marshal (mkResponse d EmptyString))) = Some ["data"])
  /\ (e <> EmptyString ->
      json.keys (fst (json.Marshal (mkResponse EmptyString e))) = Some ["error"])
  /\ fst (json.Marshal (mkResponse EmptyString EmptyString)) = "{}".
Proof.
  split; [ apply json_object_facts.keys_Marshal | ].
  split; [ | split; [ | reflexivity ] ].
  - intros Hd. rewrite json_object_facts.keys_Marshal.
    destruct d; [ contradiction | reflexivity ].
  - intros He. rewrite json_object_facts.keys_Marshal.
    destruct e; [ contradiction | reflexivity ].
Qed.

(** ** The statements at work *)

(** C1.  The handler of [main] is not the access log around recovery: on a
    GET to /hello the two chains print their lines in different orders. *)
Lemma log_is_not_outermost :
  ~ log_outermost sample_clock sample_Format sample_IsPrint stderr NotFound.
Proof.
  unfold log_outermost. intros H.
  apply (f_equal (fun h : Handler => stdout (snd (h get_hello fresh)))) in H.
  vm_compute in H. discriminate H.
Qed.

Lemma main_nests_log_inside_recovery_run :
  URL_Path get_hello = "/hello"
  /\ stdout (snd (main_handler sample_clock sample_Format sample_IsPrint stderr NotFound
                    get_hello fresh))
     = ["panic middleware"; "access_log middleware"; "hello handler";
        "panic middleware defer"].
Proof.
  split; [ reflexivity | ].
  exact (proj2 (main_nests_log_inside_recovery sample_clock sample_Format sample_IsPrint
                  stderr NotFound) get_hello fresh eq_refl).
Defined.

Lemma sample_clock_monotone : monotone sample_clock.
Proof. unfold monotone, sample_clock. intros i j Hij. cbn [mono]. lia. Defined.

(** C2.  When the handler under the middlewares faults, the request is
    answered but the log holds no access-log line, where the claim wants one. *)
Lemma faulted_request_has_no_access_line :
  fst (recovery sample_IsPrint stderr (accessLog sample_clock stderr faulting) get_other fresh)
  = Ok tt
  /\ count_access
       (logged (snd (recovery sample_IsPrint stderr (accessLog sample_clock stderr faulting)
                       get_other fresh)))
     <> 1%nat.
Proof. split; [ reflexivity | ]. vm_compute. discriminate. Qed.

Lemma access_line_follows_downstream_run :
  monotone sample_clock
  /\ (forall c, stderr c = None)
  /\ count_access
       (logged (snd (main_handler sample_clock sample_Format sample_IsPrint stderr NotFound
                       get_hello fresh)))
     = 1%nat.
Proof.
  split; [ exact sample_clock_monotone | ]. split; [ reflexivity | ].
  exact (proj2 (proj2 (access_line_follows_downstream sample_clock sample_Format
                         sample_IsPrint stderr NotFound
                         (ServeHTTP NotFound (the_mux sample_clock sample_Format sample_IsPrint))
                         get_hello fresh sample_clock_monotone (fun c => eq_refl)))
           eq_refl).
Defined.

(** C3.  On a POST to /hello the body is not the envelope with the English
    wording of the claim; on a HEAD, a method other than GET as well, the
    answer has no body at all. *)
Lemma english_envelope_is_not_sent :
  served (main_handler sample_clock sample_Format sample_IsPrint stderr NotFound)
    post_hello fresh
  <> Answered StatusOK (fst (json.Marshal (mkResponse EmptyString (english_unsupported "POST"))))
  /\ Method head_hello <> MethodGet
  /\ served (main_handler sample_clock sample_Format sample_IsPrint stderr NotFound)
       head_hello fresh
     = Answered StatusOK EmptyString.
Proof.
  split; [ vm_compute; discriminate | ].
  split; [ discriminate | vm_compute; reflexivity ].
Qed.

Lemma other_method_sends_error_run :
  Method post_hello <> MethodGet
  /\ URL_Path post_hello = "/hello"
  /\ (forall c, stderr c = None)
  /\ validMethod (Method post_hello) = true
  /\ exists body,
       served (main_handler sample_clock sample_Format sample_IsPrint stderr NotFound)
         post_hello fresh
       = Answered StatusOK body
       /\ json.Unmarshal body
          = Some (mkResponse EmptyString
                    ("метод " ++ String dquote ("POST" ++ String dquote " не поддерживается"))).
Proof.
  assert (Hm : Method post_hello <> MethodGet) by discriminate.
  split; [ exact Hm | ]. split; [ reflexivity | ]. split; [ reflexivity | ].
  split; [ reflexivity | ].
  pose proof (other_method_sends_error sample_clock sample_Format sample_IsPrint stderr NotFound
                post_hello fresh Hm eq_refl (fun c => eq_refl)) as T.
  cbv zeta in T. destruct T as [_ [_ [_ [Hserved [Htext [_ [_ Hback]]]]]]].
  eexists. split; [ exact (Hserved eq_refl) | ].
  change (String.eqb (Method post_hello) MethodHead) with false. cbv iota.
  rewrite Hback, (Htext eq_refl). reflexivity.
Defined.

(** C4 on a POST, with the serializer of the program. *)
Lemma error_paths_send_200_run :
  Method post_hello <> MethodGet
  /\ exists l w',
       helloHandler_frame sample_clock sample_Format sample_IsPrint json.Marshal post_hello
         (zero_locals, fresh)
       = (Ok tt, (l, w'))
       /\ status l = StatusNotImplemented
       /\ status_sent (resp w') = StatusOK.
Proof.
  assert (Hm : Method post_hello <> MethodGet) by discriminate.
  split; [ exact Hm | ].
  destruct (helloHandler_frame sample_clock sample_Format sample_IsPrint json.Marshal
              post_hello (zero_locals, fresh)) as [res [l w']] eqn:E.
  pose proof (error_paths_send_200 sample_clock sample_Format sample_IsPrint json.Marshal
                post_hello fresh res l w' E (or_introl Hm)) as T.
  destruct T as [_ [_ Hsent]].
  vm_compute in E. inversion E; subst.
  eexists. eexists. split; [ reflexivity | ]. split; [ reflexivity | ].
  exact (Hsent eq_refl).
Defined.

(** C5 on a handler that divides by zero. *)
Lemma recovery_intercepts_run :
  faulting get_other (printed "panic middleware" fresh)
  = (Panicked "runtime error: integer divide by zero", printed "panic middleware" fresh)
  /\ stderr (panic_line get_other) = None
  /\ status_sent (resp (snd (recovery sample_IsPrint stderr faulting get_other fresh)))
     = StatusInternalServerError.
Proof.
  split; [ reflexivity | ]. split; [ reflexivity | ].
  pose proof (recovery_intercepts sample_IsPrint stderr faulting get_other fresh _ _
                eq_refl eq_refl) as T.
  destruct T as [_ [_ [_ [_ [_ [_ Hstatus]]]]]].
  exact (Hstatus eq_refl).
Defined.

(** C6 on a GET. *)
Lemma get_hello_sends_data_run :
  Method get_hello = MethodGet
  /\ URL_Path get_hello = "/hello"
  /\ status_sent (resp (snd (main_handler sample_clock sample_Format sample_IsPrint stderr
                               NotFound get_hello fresh)))
     = StatusOK
  /\ json.Unmarshal
       (body_sent (resp (snd (main_handler sample_clock sample_Format sample_IsPrint stderr
                                NotFound get_hello fresh))))
     = Some (mkResponse
               "Hello, from service. Today is Mon, 02 Jan 2006 15:04:05 -0700" EmptyString).
Proof.
  split; [ reflexivity | ]. split; [ reflexivity | ].
  pose proof (get_hello_sends_data sample_clock sample_Format sample_IsPrint stderr NotFound
                get_hello fresh eq_refl eq_refl (fun c => eq_refl)) as T.
  cbv zeta in T. destruct T as [_ [_ [Hfresh [_ [_ [_ Hback]]]]]].
  destruct (Hfresh eq_refl) as [Hstatus Hbody].
  split; [ exact Hstatus | ]. rewrite Hbody. exact (Hback eq_refl).
Defined.



(** C8.  A handler that writes and then faults: its bytes and those of the
    interception path are both in the response. *)
Lemma handler_and_middleware_both_write :
  ~ single_writer sample_IsPrint stderr writes_then_faults get_other fresh.
Proof.
  unfold single_writer. cbv zeta. intros [H | H]; vm_compute in H; discriminate H.
Qed.

Lemma recovery_paths_run :
  (forall c, stderr c = None)
  /\ single_writer sample_IsPrint stderr faulting get_other fresh
  /\ resp (snd (recovery sample_IsPrint stderr faulting get_other fresh))
     = [WriteHeader StatusInternalServerError;
        Write (fst (json.Marshal
                      (mkResponse EmptyString "runtime error: integer divide by zero")))].
Proof.
  split; [ reflexivity | ].
  pose proof (proj2 (recovery_paths sample_IsPrint stderr faulting get_other fresh
                       (fun c => eq_refl)) _ _ eq_refl) as T.
  destruct T as [_ [Hresp Hone]].
  split; [ exact (Hone eq_refl) | exact Hresp ].
Defined.

(** C9.  A field that is not valid UTF-8 does not come back: the byte is
    replaced by U+FFFD. *)
Lemma invalid_utf8_does_not_round_trip :
  lone_byte <> EmptyString
  /\ json.Unmarshal (fst (json.Marshal (mkResponse lone_byte EmptyString)))
     <> Some (mkResponse lone_byte EmptyString).
Proof. split; [ discriminate | ]. vm_compute. discriminate. Qed.

Lemma envelope_round_trip_run :
  "x"%string <> EmptyString
  /\ utf8.ValidString "x" = true
  /\ json.Unmarshal (fst (json.Marshal (mkResponse "x" EmptyString)))
     = Some (mkResponse "x" EmptyString).
Proof.
  assert (Hx : "x"%string <> EmptyString) by discriminate.
  split; [ exact Hx | ]. split; [ reflexivity | ].
  exact (proj1 (envelope_round_trip "x" Hx eq_refl)).
Defined.

(** C10 on a success body. *)
Lemma omitempty_drops_empty_fields_run :
  "ok"%string <> EmptyString
  /\ json.keys (fst (json.Marshal (mkResponse "ok" EmptyString))) = Some ["data"].
Proof.
  assert (Hd : "ok"%string <> EmptyString) by discriminate.
  split; [ exact Hd | ].
  exact (proj1 (proj2 (omitempty_drops_empty_fields "ok" EmptyString)) Hd).
Defined.


(** * Further properties of the handlers *)

(** ** The handlers one by one *)

Section Handlers.

Variable clock : nat -> Time.
Variable Format_RFC1123Z : Time -> string.
Variable unicode_IsPrint : N -> bool.
Variable log_fault : LogCall -> option string.
Variable unmatched : Handler.

(** [helloHandler] (main.go, lines 14-56), whatever the serializer does: it
    returns on every request, never panics, writes the body with one Write,
    preceded by WriteHeader(200) when no error is left, prints its line, logs
    nothing and reads the clock once on GET and never otherwise. *)
Theorem hello_returns_and_writes_once marshal r w :
  exists d w',
    helloHandler_with clock Format_RFC1123Z unicode_IsPrint marshal r w = (Ok tt, w')
    /\ (resp w' = (resp w ++ [Write d])%list
        \/ resp w' = (resp w ++ [WriteHeader StatusOK; Write d])%list)
    /\ logged w' = logged w
    /\ stdout w' = (stdout w ++ ["hello handler"])%list
    /\ ticks w' = if String.eqb (Method r) MethodGet then S (ticks w) else ticks w.
Proof.
  unfold helloHandler_with.
  destruct (String.eqb_spec (Method r) MethodGet) as [Hm | Hm].
  - pose proof (hello_frame_get clock Format_RFC1123Z unicode_IsPrint marshal r w Hm) as E.
    unfold zero_locals in E. rewrite E.
    destruct (marshal (mkResponse (greeting clock Format_RFC1123Z w) EmptyString))
      as [d [e | ]].
    + destruct (marshal (mkResponse EmptyString e)) as [d2 e2].
      exists d2. eexists. split; [ reflexivity | ]. cbn. auto.
    + exists d. eexists. split; [ reflexivity | ]. cbn. auto.
  - pose proof (hello_frame_other clock Format_RFC1123Z unicode_IsPrint marshal r w Hm) as E.
    unfold zero_locals in E. rewrite E.
    destruct (marshal (mkResponse EmptyString (unsupported unicode_IsPrint (Method r))))
      as [d e].
    exists d. eexists. split; [ reflexivity | ]. cbn. auto.
Qed.

(** [helloHandler] reads nothing of the request but its method (line 39
    and line 52): two requests with the same method, whatever their paths and
    their senders, get the same answer and leave the same world.  Routing by
    path is the work of the route table alone. *)
Theorem hello_reads_only_the_method marshal r r' w :
  Method r = Method r' ->
  helloHandler_with clock Format_RFC1123Z unicode_IsPrint marshal r w
  = helloHandler_with clock Format_RFC1123Z unicode_IsPrint marshal r' w.
Proof.
  intros E. unfold helloHandler_with, helloHandler_frame, hello_switch.
  rewrite E. reflexivity.
Qed.

(** With [json.Marshal], which reports no error on a [response], the two
    tests on its error (lines 25-27 and 46-49) never succeed: when
    [helloHandler] returns, its variable err is nil and its variable status is
    0 after a GET and 501 after any other method, never 500. *)
Theorem hello_never_assigns_500 r w :
  exists l w',
    helloHandler_frame clock Format_RFC1123Z unicode_IsPrint json.Marshal r (zero_locals, w)
    = (Ok tt, (l, w'))
    /\ err l = None
    /\ status l = (if String.eqb (Method r) MethodGet then 0%Z else StatusNotImplemented)
    /\ status l <> StatusInternalServerError.
Proof.
  destruct (String.eqb_spec (Method r) MethodGet) as [Hm | Hm].
  - rewrite (hello_frame_get clock Format_RFC1123Z unicode_IsPrint json.Marshal r w Hm).
    rewrite Marshal_pair. eexists. eexists. split; [ reflexivity | ].
    cbn. repeat split. discriminate.
  - rewrite (hello_frame_other clock Format_RFC1123Z unicode_IsPrint json.Marshal r w Hm).
    rewrite Marshal_pair. eexists. eexists. split; [ reflexivity | ].
    cbn. repeat split. discriminate.
Qed.

(** [accessLog] (lines 87-101) makes no call on the response writer and
    prints nothing after the handler it wraps: whatever that handler does and
    whether the log output faults or not, the calls on the writer and the
    lines printed are those the wrapped handler left.  It reads the clock a
    second time when the wrapped handler returns, and not when it panics:
    the elapsed time of a panicking request is never taken. *)
Theorem accessLog_leaves_the_response next r w :
  resp (snd (accessLog clock log_fault next r w)) = resp (snd (next r (timing w)))
  /\ stdout (snd (accessLog clock log_fault next r w)) = stdout (snd (next r (timing w)))
  /\ ticks (snd (accessLog clock log_fault next r w))
     = match fst (next r (timing w)) with
       | Ok _ => S (ticks (snd (next r (timing w))))
       | Panicked _ => ticks (snd (next r (timing w)))
       end.
Proof.
  destruct (next r (timing w)) as [[[] | v] w2] eqn:Hrun.
  - rewrite (accessLog_returns clock log_fault next r w w2 Hrun).
    destruct (log_fault _); split; [ reflexivity | split; reflexivity
                                   | reflexivity | split; reflexivity ].
  - rewrite (accessLog_panics clock log_fault next r w v w2 Hrun).
    split; [ reflexivity | split; reflexivity ].
Qed.




(** Route dispatch as [main] sets it up (lines 111-114): the path /hello,
    and no other, reaches [helloHandler]; every other path is left to the
    routing layer. *)
Lemma mux_other r :
  URL_Path r <> "/hello" ->
  ServeHTTP unmatched (the_mux clock Format_RFC1123Z unicode_IsPrint) r = unmatched r.
Proof.
  intros Hp. unfold ServeHTTP, the_mux, HandleFunc, NewServeMux.
  cbn [routes app find fst].
  destruct (String.eqb_spec "/hello" (URL_Path r)) as [E | E]; [ | reflexivity ].
  exfalso. apply Hp. symmetry. exact E.
Qed.

(** The two middlewares are around the whole route table, not around
    [helloHandler] alone (lines 117-118): a request to any other path, which
    the routing layer answers, gets the answer of the routing layer unchanged
    and its access-log line, when the log output does not fault. *)
Theorem unmatched_paths_are_logged r w w2 :
  URL_Path r <> "/hello" ->
  unmatched r (timing (printed "panic middleware" w)) = (Ok tt, w2) ->
  (forall c, log_fault c = None) ->
  main_handler clock Format_RFC1123Z unicode_IsPrint log_fault unmatched r w
  = (Ok tt, printed "panic middleware defer"
              (logging (access_line r (elapsed_at clock w w2)) (clock_read w2)))
  /\ resp (snd (main_handler clock Format_RFC1123Z unicode_IsPrint log_fault unmatched r w))
     = resp w2
  /\ count_access
       (logged (snd (main_handler clock Format_RFC1123Z unicode_IsPrint log_fault unmatched
                       r w)))
     = S (count_access (logged w2)).
Proof.
  intros Hp Hrun Hlog. rewrite main_handler_unfold.
  assert (Hmux : ServeHTTP unmatched (the_mux clock Format_RFC1123Z unicode_IsPrint) r
                   (timing (printed "panic middleware" w)) = (Ok tt, w2)).
  { rewrite (mux_other r Hp). exact Hrun. }
  rewrite (chain_returns clock unicode_IsPrint log_fault _ r w w2 Hmux), Hlog.
  split; [ reflexivity | ]. split; [ reflexivity | ].
  unfold printed, logging, clock_read. cbn [snd logged].
  apply count_access_snoc_access.
Qed.


End Handlers.

(** ** The envelope, whatever the bytes *)

Section Envelope.

Import utf8 json utf8_facts json_facts wire_facts.

(** The body [json.Marshal] makes of a [response] (the struct of lines
    104-107, serialized at lines 24, 45 and 69), whatever bytes the two fields
    hold: it is valid UTF-8, and it has no byte below 0x20, no less-than
    sign, no greater-than sign and no ampersand in it. *)
Theorem body_is_inert_utf8 (v : response) :
  ValidString (fst (Marshal v)) = true
  /\ all_bytes inert_byte (fst (Marshal v)) = true.
Proof.
  destruct v as [d e]. rewrite json_object_facts.Marshal_text.
  destruct d as [ | cd d ], e as [ | ce e ]; [ split; reflexivity | | | ].
  - destruct (appendString_inert (String ce e) "}" eq_refl eq_refl) as [Hi Hv].
    change (String "{" (String dquote ("error" ++ String dquote (String ":"
              (appendString (String ce e) ++ "}")))))%string
      with (("{" ++ String dquote ("error" ++ String dquote ":"))
            ++ (appendString (String ce e) ++ "}"))%string.
    split; [ apply ValidString_app; [ reflexivity | exact Hv ] | ].
    rewrite all_bytes_app, Hi. reflexivity.
  - destruct (appendString_inert (String cd d) "}" eq_refl eq_refl) as [Hi Hv].
    change (String "{" (String dquote ("data" ++ String dquote (String ":"
              (appendString (String cd d) ++ "}")))))%string
      with (("{" ++ String dquote ("data" ++ String dquote ":"))
            ++ (appendString (String cd d) ++ "}"))%string.
    split; [ apply ValidString_app; [ reflexivity | exact Hv ] | ].
    rewrite all_bytes_app, Hi. reflexivity.
  - destruct (appendString_inert (String ce e) "}" eq_refl eq_refl) as [Hie Hve].
    set (tail := (String "," (String dquote ("error" ++ String dquote (String ":"
                    (appendString (String ce e) ++ "}")))))%string).
    assert (Htail : all_bytes inert_byte tail = true /\ ValidString tail = true).
    { unfold tail.
      change (String "," (String dquote ("error" ++ String dquote (String ":"
                (appendString (String ce e) ++ "}")))))%string
        with (("," ++ String dquote ("error" ++ String dquote ":"))
              ++ (appendString (String ce e) ++ "}"))%string.
      split; [ rewrite all_bytes_app, Hie; reflexivity | ].
      apply ValidString_app; [ reflexivity | exact Hve ]. }
    destruct Htail as [Hit Hvt].
    destruct (appendString_inert (String cd d) tail Hit Hvt) as [Hi Hv].
    change (String "{" (String dquote ("data" ++ String dquote (String ":"
              (appendString (String cd d) ++ tail)))))%string
      with (("{" ++ String dquote ("data" ++ String dquote ":"))
            ++ (appendString (String cd d) ++ tail))%string.
    split; [ apply ValidString_app; [ reflexivity | exact Hv ] | ].
    rewrite all_bytes_app, Hi. reflexivity.
Qed.

(** Decoding what was encoded, for any bytes in the two fields of a
    [response]: the body always decodes, each field comes back as its coerced
    text, which is valid UTF-8, and a field comes back as it was exactly when
    it was valid UTF-8. *)
Theorem decode_of_encode (d e : string) :
  Unmarshal (fst (Marshal (mkResponse d e))) = Some (mkResponse (coerced d) (coerced e))
  /\ ValidString (coerced d) = true
  /\ ValidString (coerced e) = true
  /\ (coerced d = d <-> ValidString d = true)
  /\ (coerced e = e <-> ValidString e = true).
Proof.
  assert (Hiff : forall s, coerced s = s <-> ValidString s = true).
  { intros s. split.
    - intros E. rewrite <- E. apply (wire_facts.coerced_is_valid (String.length s)). lia.
    - apply coerced_ValidString. }
  split; [ apply json_object_facts.Unmarshal_Marshal | ].
  split; [ apply (wire_facts.coerced_is_valid (String.length d)); lia | ].
  split; [ apply (wire_facts.coerced_is_valid (String.length e)); lia | ].
  split; apply Hiff.
Qed.

End Envelope.

(** ** The answers of the endpoint *)

Section Answers.

Variable clock : nat -> Time.
Variable Format_RFC1123Z : Time -> string.
Variable unicode_IsPrint : N -> bool.

(** The error of [helloHandler] (lines 51-54 and 23-30) for any method, a
    valid one or not: the handler writes one body, the envelope whose error is
    the text made with [%q] from the method, and that body decodes to this
    very text and an empty data, because [%q] writes valid UTF-8 whatever
    bytes the method holds. *)
Theorem error_text_comes_back r w :
  Method r <> MethodGet ->
  helloHandler clock Format_RFC1123Z unicode_IsPrint r w
  = (Ok tt,
     answered
       [Write (fst (json.Marshal
                      (mkResponse EmptyString (unsupported unicode_IsPrint (Method r)))))]
       w)
  /\ json.Unmarshal
       (fst (json.Marshal (mkResponse EmptyString (unsupported unicode_IsPrint (Method r)))))
     = Some (mkResponse EmptyString (unsupported unicode_IsPrint (Method r)))
  /\ utf8.ValidString (strconv.Quote unicode_IsPrint (Method r)) = true.
Proof.
  intros Hm. split; [ apply hello_other, Hm | ]. split.
  - rewrite json_object_facts.Unmarshal_Marshal.
    rewrite (json_facts.coerced_ValidString (unsupported unicode_IsPrint (Method r)));
      [ reflexivity | apply quote_facts.unsupported_is_valid ].
  - apply quote_facts.Quote_valid.
Qed.

Lemma body_sent_app a b : body_sent (a ++ b) = (body_sent a ++ body_sent b)%string.
Proof.
  induction a as [ | [code | d] a IH ]; cbn [app body_sent]; [ reflexivity | exact IH | ].
  rewrite IH. symmetry. apply json_facts.app_assoc.
Qed.

(** Every answer of [helloHandler] is an envelope with one field, whatever
    the method and whatever the clock and the layout give: the bytes it adds
    to the body decode to a [response] in which data is set and error is not
    after a GET, and error is set and data is not after any other method. *)
Theorem hello_answers_with_one_field r w :
  exists e w',
    helloHandler clock Format_RFC1123Z unicode_IsPrint r w = (Ok tt, w')
    /\ exists body,
         body_sent (resp w') = (body_sent (resp w) ++ body)%string
         /\ json.Unmarshal body = Some e
         /\ one_field e
         /\ (Error e = EmptyString <-> Method r = MethodGet).
Proof.
  destruct (String.eqb_spec (Method r) MethodGet) as [Hm | Hm].
  - rewrite (hello_get clock Format_RFC1123Z unicode_IsPrint r w Hm).
    eexists. eexists. split; [ reflexivity | ]. eexists.
    split.
    { cbn [resp answered clock_read]. rewrite body_sent_app. cbn [body_sent].
      rewrite string_app_nil_r. reflexivity. }
    split; [ apply json_object_facts.Unmarshal_Marshal | ].
    split.
    + left. split; [ | reflexivity ]. cbn [Data].
      apply wire_facts.coerced_not_empty. discriminate.
    + cbn [Error]. split; [ intros _; exact Hm | reflexivity ].
  - rewrite (hello_other clock Format_RFC1123Z unicode_IsPrint r w Hm).
    eexists. eexists. split; [ reflexivity | ]. eexists.
    split.
    { cbn [resp answered]. rewrite body_sent_app. cbn [body_sent].
      rewrite string_app_nil_r. reflexivity. }
    split; [ apply json_object_facts.Unmarshal_Marshal | ].
    assert (Hne : json.coerced (unsupported unicode_IsPrint (Method r)) <> EmptyString)
      by (apply wire_facts.coerced_not_empty; discriminate).
    split.
    + right. split; [ reflexivity | exact Hne ].
    + cbn [Error]. split; [ intros E; contradiction | intros E; contradiction ].
Qed.

End Answers.

(** ** The statements above on the sample runtime *)



(** A GET of /other, which the routing layer answers with 404. *)
Lemma unmatched_paths_are_logged_run :
  URL_Path get_other <> "/hello"
  /\ (forall c, stderr c = None)
  /\ status_sent (resp (snd (main_handler sample_clock sample_Format sample_IsPrint stderr
                               NotFound get_other fresh)))
     = 404%Z
  /\ count_access (logged (snd (main_handler sample_clock sample_Format sample_IsPrint stderr
                                  NotFound get_other fresh)))
     = 1%nat.
Proof.
  assert (Hp : URL_Path get_other <> "/hello") by discriminate.
  split; [ exact Hp | ]. split; [ reflexivity | ].
  pose proof (unmatched_paths_are_logged sample_clock sample_Format sample_IsPrint stderr
                NotFound get_other fresh _ Hp eq_refl (fun c => eq_refl)) as T.
  destruct T as [_ [Hresp Hcount]].
  split; [ rewrite Hresp; reflexivity | rewrite Hcount; reflexivity ].
Defined.


(** A method with a space and a double quote in it. *)
Lemma error_text_comes_back_run :
  Method odd_hello <> MethodGet
  /\ validMethod (Method odd_hello) = false
  /\ json.Unmarshal
       (body_sent (resp (snd (helloHandler sample_clock sample_Format sample_IsPrint
                                odd_hello fresh))))
     = Some (mkResponse EmptyString (unsupported sample_IsPrint odd_method)).
Proof.
  assert (Hm : Method odd_hello <> MethodGet) by discriminate.
  split; [ exact Hm | ]. split; [ reflexivity | ].
  pose proof (error_text_comes_back sample_clock sample_Format sample_IsPrint odd_hello fresh
                Hm) as T.
  destruct T as [Hrun [Hback _]].
  rewrite Hrun. cbn [snd resp answered fresh app body_sent].
  rewrite string_app_nil_r. exact Hback.
Defined.

(** A GET of /hello and a GET of /other, handed to [helloHandler] itself. *)
Lemma hello_reads_only_the_method_run :
  Method get_other = Method get_hello
  /\ URL_Path get_other <> URL_Path get_hello
  /\ helloHandler sample_clock sample_Format sample_IsPrint get_other fresh
     = helloHandler sample_clock sample_Format sample_IsPrint get_hello fresh.
Proof.
  split; [ reflexivity | ]. split; [ discriminate | ].
  exact (hello_reads_only_the_method sample_clock sample_Format sample_IsPrint json.Marshal
           get_other get_hello fresh eq_refl).
Defined.
